(** * NETCONF <delete-config>: a shallow embedding of [op_deleteconfig]

    Source: [src/server/op_deleteconfig.c].

    The handler is sequential C code that talks to three collaborators
    through function calls: the sysrepo session wrappers ([np2srv_sr_*]),
    the URL helpers ([op_url_import], [op_url_init]) and the reply
    constructors of libnetconf2.  The embedding keeps that shape:

    - the collaborators are an environment that answers every call with a
      return code and a value for the [ereply] out-parameter;
    - the handler is written in a small state monad whose state is the part
      of the C state that the function reads and writes ([sessions->ds], the
      local [ereply]) together with the log of the calls issued so far;
    - [goto finish] is the failure case of the monad. *)

From Stdlib Require Import ZArith String List Lia.
From stdpp Require Import base option list strings gmap fin_maps.

Local Open Scope string_scope.
Local Open Scope list_scope.

(** ** libnetconf2: errors and replies *)

(** [NC_ERR], the error tags of RFC 6241 as libnetconf2 enumerates them. *)
Inductive NC_ERR : Set :=
| NC_ERR_UNKNOWN | NC_ERR_IN_USE | NC_ERR_INVALID_VALUE | NC_ERR_TOO_BIG
| NC_ERR_MISSING_ATTR | NC_ERR_BAD_ATTR | NC_ERR_UNKNOWN_ATTR
| NC_ERR_MISSING_ELEM | NC_ERR_BAD_ELEM | NC_ERR_UNKNOWN_ELEM
| NC_ERR_UNKNOWN_NS | NC_ERR_ACCESS_DENIED | NC_ERR_LOCK_DENIED
| NC_ERR_RES_DENIED | NC_ERR_ROLLBACK_FAILED | NC_ERR_DATA_EXISTS
| NC_ERR_DATA_MISSING | NC_ERR_OP_NOT_SUPPORTED | NC_ERR_OP_FAILED
| NC_ERR_MALFORMED_MSG.

Inductive NC_ERR_TYPE : Set :=
| NC_ERR_TYPE_UNKNOWN | NC_ERR_TYPE_TRAN | NC_ERR_TYPE_RPC
| NC_ERR_TYPE_PROT | NC_ERR_TYPE_APP.

(** [struct nc_server_error]: the fields this handler sets. *)
Record nc_server_error : Set := mk_err {
  err_tag : NC_ERR;
  err_type : NC_ERR_TYPE;
  err_message : option string;
  err_message_lang : option string
}.

(** [struct nc_server_reply]: a reply is an acknowledgement, a data reply or
    a list of errors.  A C pointer to a reply is an [option]; [None] is the
    NULL pointer. *)
Inductive nc_server_reply : Set :=
| NC_RPL_OK
| NC_RPL_DATA
| NC_RPL_ERROR (errs : list nc_server_error).

Definition nc_err (tag : NC_ERR) (type : NC_ERR_TYPE) : nc_server_error :=
  mk_err tag type None None.

Definition nc_err_set_msg (e : nc_server_error) (msg lang : string)
  : nc_server_error :=
  mk_err (err_tag e) (err_type e) (Some msg) (Some lang).

Definition nc_server_reply_ok : option nc_server_reply := Some NC_RPL_OK.

Definition nc_server_reply_err (e : nc_server_error) : option nc_server_reply :=
  Some (NC_RPL_ERROR [e]).

(** [nc_server_reply_add_err] appends to an error reply in place; on a NULL
    reply or a reply of another type it reports an argument error and leaves
    its argument as it is. *)
Definition nc_server_reply_add_err (reply : option nc_server_reply)
           (e : nc_server_error) : option nc_server_reply :=
  match reply with
  | Some (NC_RPL_ERROR errs) => Some (NC_RPL_ERROR (errs ++ [e]))
  | other => other
  end.

(** ** sysrepo: datastores *)

(** [sr_datastore_t] is a C enum of sysrepo.h; the handler initialises a
    variable of that type with the literal 0, so the enum is kept as its
    integer values (startup 0, running 1, candidate 2). *)
Definition sr_datastore_t := Z.
Definition SR_DS_STARTUP : sr_datastore_t := 0%Z.
Definition SR_DS_RUNNING : sr_datastore_t := 1%Z.
Definition SR_DS_CANDIDATE : sr_datastore_t := 2%Z.

(** ** libyang: schema nodes *)

(** [LYS_NODE], the schema node kinds of libyang's tree_schema.h, with the
    bit value of each enumerator.  [LYS_ANYDATA] includes the bit of
    [LYS_ANYXML]. *)
Inductive LYS_NODE : Set :=
| LYS_UNKNOWN | LYS_CONTAINER | LYS_CHOICE | LYS_LEAF | LYS_LEAFLIST
| LYS_LIST | LYS_ANYXML | LYS_CASE | LYS_NOTIF | LYS_RPC | LYS_INPUT
| LYS_OUTPUT | LYS_GROUPING | LYS_USES | LYS_AUGMENT | LYS_ACTION
| LYS_ANYDATA | LYS_EXT.

Definition LYS_NODE_bits (k : LYS_NODE) : Z :=
  match k with
  | LYS_UNKNOWN => 0x0000
  | LYS_CONTAINER => 0x0001
  | LYS_CHOICE => 0x0002
  | LYS_LEAF => 0x0004
  | LYS_LEAFLIST => 0x0008
  | LYS_LIST => 0x0010
  | LYS_ANYXML => 0x0020
  | LYS_CASE => 0x0040
  | LYS_NOTIF => 0x0080
  | LYS_RPC => 0x0100
  | LYS_INPUT => 0x0200
  | LYS_OUTPUT => 0x0400
  | LYS_GROUPING => 0x0800
  | LYS_USES => 0x1000
  | LYS_AUGMENT => 0x2000
  | LYS_ACTION => 0x4000
  | LYS_ANYDATA => 0x8020
  | LYS_EXT => 0x10000
  end%Z.

(** Flag bits of [struct lys_node] (tree_schema.h): configuration node,
    state node. *)
Definition LYS_CONFIG_W : Z := 0x01%Z.
Definition LYS_CONFIG_R : Z := 0x02%Z.

(** The fields of [struct lys_node] the handler reads; the [next] pointers of
    the sibling list are the list structure. *)
Record lys_node : Set := mk_node {
  nodetype : LYS_NODE;
  flags : Z
}.

(** [struct lys_module]: name and top-level schema nodes ([mod->data]). *)
Record lys_module : Set := mk_module {
  name : string;
  data : list lys_node
}.

(** Parser options of libyang's tree_data.h handed to [op_url_import]. *)
Definition LYD_OPT_CONFIG : Z := 0x01%Z.
Definition LYD_OPT_STRICT : Z := 0x0100%Z.

(** ** The request *)

(** What [lyd_find_path (rpc, "/ietf-netconf:delete-config/target/*")] yields:
    the schema name of the single child of <target> and, read as a leaf, its
    [value_str] ([None] is a NULL string). *)
Record request : Set := mk_request {
  dsname : string;
  value_str : option string
}.

(** ** Calls to the collaborators *)

Inductive call : Set :=
| check_exec_permission (xpath : string)
| find_path (xpath : string)
| url_import (url : string) (options : Z)
| free_withsiblings
| url_init (url : string)
| session_switch_ds (ds : sr_datastore_t)
| session_refresh
| delete_item (path : string) (opts : Z)
| discard_changes
| commit.

(** The answer to a call: the C return value and the reply the callee leaves
    in [*ereply]. *)
Record resp : Set := mk_resp {
  rc : Z;
  out : option nc_server_reply
}.

(** A log entry is a call with its return code; logs are chronological. *)
Abbreviation entry := (call * Z)%type.

(** The environment decides every answer from the calls made so far in this
    invocation, so any sequence of outcomes is some environment. *)
Definition env : Type := list entry -> call -> resp.

(** ** State and monad *)

Record state : Set := mk_state {
  ds : sr_datastore_t;                  (* sessions->ds *)
  ereply : option nc_server_reply;      (* the local ereply *)
  log : list entry
}.

(** A computation either continues with a value or has jumped to [finish]. *)
Definition M (A : Type) : Type := state -> option A * state.

Definition ret {A} (a : A) : M A := fun s => (Some a, s).

Definition bind {A B} (m : M A) (k : A -> M B) : M B :=
  fun s => match m s with
           | (Some a, s') => k a s'
           | (None, s') => (None, s')
           end.

Definition goto_finish {A} : M A := fun s => (None, s).

Notation "'let!' x <- m ; k" := (bind m (fun x => k))
  (at level 10, x name, m at level 100, k at level 200).
Notation "'do!' m ; k" := (bind m (fun _ => k))
  (at level 10, m at level 100, k at level 200).

Definition set_ereply (r : option nc_server_reply) : M unit :=
  fun s => (Some tt, mk_state (ds s) r (log s)).

Definition get_ereply : M (option nc_server_reply) :=
  fun s => (Some (ereply s), s).

Definition get_ds : M sr_datastore_t := fun s => (Some (ds s), s).

Definition set_ds (d : sr_datastore_t) : M unit :=
  fun s => (Some tt, mk_state d (ereply s) (log s)).

(** A call that is handed [&ereply]. *)
Definition invoke (E : env) (c : call) : M Z :=
  fun s => let r := E (log s) c in
           (Some (rc r), mk_state (ds s) (out r) (log s ++ [(c, rc r)])).

(** A call that is handed NULL instead of [&ereply]. *)
Definition invoke_noreply (E : env) (c : call) : M Z :=
  fun s => let r := E (log s) c in
           (Some (rc r), mk_state (ds s) (ereply s) (log s ++ [(c, rc r)])).

(** A libyang call on local data: it is logged, nothing is asked. *)
Definition note (c : call) : M unit :=
  fun s => (Some tt, mk_state (ds s) (ereply s) (log s ++ [(c, 0%Z)])).

(** C truth of a return code: [if (f(...))] takes the branch when the value
    is not 0. *)
Definition failed (r : Z) : bool := negb (r =? 0)%Z.

(** ** The collaborators' functions, as the handler calls them *)

Section Handler.

(** [NP2SRV_ENABLED_URL_CAPABILITY]: whether the build defines it. *)
Variable URL_CAPABILITY : bool.
Variable E : env.

Definition np2srv_sr_check_exec_permission (xpath : string) : M Z :=
  invoke E (check_exec_permission xpath).

Definition lyd_find_path (rpc : request) (xpath : string) : M request :=
  do! note (find_path xpath); ret rpc.

Definition op_url_import (url : string) (options : Z) : M Z :=
  invoke E (url_import url options).

Definition lyd_free_withsiblings : M unit := note free_withsiblings.

Definition op_url_init (url : string) : M Z := invoke E (url_init url).

Definition np2srv_sr_session_switch_ds (d : sr_datastore_t) : M Z :=
  invoke E (session_switch_ds d).

Definition np2srv_sr_session_refresh : M Z := invoke E session_refresh.

Definition np2srv_sr_delete_item (path : string) (opts : Z) : M Z :=
  invoke E (delete_item path opts).

(** Always called with NULL for the reply. *)
Definition np2srv_sr_discard_changes : M Z := invoke_noreply E discard_changes.

Definition np2srv_sr_commit : M Z := invoke E commit.

(** ** The handler *)

(** [snprintf (path, 1024, "/%s:*", mod->name)]: at most 1023 characters are
    written. *)
Definition snprintf_path (mod_name : string) : string :=
  String.substring 0 1023 ("/" +:+ mod_name +:+ ":*").

(** Lines 122-123: the test that makes the sibling loop [continue]. *)
Definition data_kinds : Z :=
  Z.lor (LYS_NODE_bits LYS_CONTAINER)
    (Z.lor (LYS_NODE_bits LYS_LIST)
       (Z.lor (LYS_NODE_bits LYS_LEAFLIST)
          (Z.lor (LYS_NODE_bits LYS_LEAF) (LYS_NODE_bits LYS_ANYXML)))).

Definition skipped (iter : lys_node) : bool :=
  (Z.land (LYS_NODE_bits (nodetype iter)) data_kinds =? 0)%Z
  || negb (Z.land (flags iter) LYS_CONFIG_R =? 0)%Z.

(** Lines 121-137: [LY_TREE_FOR (mod->data, iter)].  [continue] goes on with
    the next sibling, [break] leaves the loop, [goto finish] leaves the
    function. *)
Fixpoint tree_for (mod_name : string) (iters : list lys_node) : M unit :=
  match iters with
  | [] => ret tt
  | iter :: next =>
      if skipped iter then tree_for mod_name next
      else
        let path := snprintf_path mod_name in
        let! r <- np2srv_sr_delete_item path 0;
        if failed r then
          do! np2srv_sr_discard_changes;
          goto_finish
        else ret tt
  end.

(** Lines 119-138: [while ((mod = ly_ctx_get_module_iter (ctx, &index)))]. *)
Fixpoint module_iter (mods : list lys_module) : M unit :=
  match mods with
  | [] => ret tt
  | md :: rest =>
      do! tree_for (name md) (data md);
      module_iter rest
  end.

(** Lines 49-78: which datastore is affected.  The result is the pair of the
    locals [target] and [target_url]; without the URL capability there is no
    [target_url]. *)
Definition resolve_target (rpc : request)
  : M (sr_datastore_t * option string) :=
  let target := 0%Z in
  let target_url := None in
  let! nodeset <- lyd_find_path rpc "/ietf-netconf:delete-config/target/*";
  let dsname := dsname nodeset in
  if String.eqb dsname "startup" then ret (SR_DS_STARTUP, target_url)
  else if String.eqb dsname "url" then
    if URL_CAPABILITY then
      match value_str nodeset with
      | Some urlval => ret (target, Some urlval)
      | None =>
          let e := nc_err NC_ERR_OP_FAILED NC_ERR_TYPE_APP in
          let e := nc_err_set_msg e "Missing target url" "en" in
          do! set_ereply (nc_server_reply_err e);
          goto_finish
      end
    else
      let e := nc_err NC_ERR_OP_FAILED NC_ERR_TYPE_APP in
      let e := nc_err_set_msg e "<url> source not supported" "en" in
      do! set_ereply (nc_server_reply_err e);
      goto_finish
  else ret (target, target_url).

(** Lines 81-100: delete on the URL. *)
Definition delete_url (target_url : string) : M unit :=
  let! r <- op_url_import target_url (Z.lor LYD_OPT_CONFIG LYD_OPT_STRICT);
  if failed r then
    let e := nc_err NC_ERR_OP_FAILED NC_ERR_TYPE_APP in
    let e :=
      nc_err_set_msg e "File at url does not appear to contain a valid config"
        "en" in
    let! ereply <- get_ereply;
    do! set_ereply (nc_server_reply_add_err ereply e);
    goto_finish
  else
    do! lyd_free_withsiblings;
    let! r <- op_url_init target_url;
    if failed r then goto_finish
    else
      do! set_ereply nc_server_reply_ok;
      goto_finish.

(** Lines 103-114: bind the session to the target and refresh it. *)
Definition switch_and_refresh (target : sr_datastore_t) : M unit :=
  let! sessions_ds <- get_ds;
  do! (if negb (sessions_ds =? target)%Z then
         let! r <- np2srv_sr_session_switch_ds target;
         if failed r then goto_finish
         else set_ds target
       else ret tt);
  let! r <- np2srv_sr_session_refresh;
  if failed r then goto_finish else ret tt.

(** Lines 140-146: commit the result. *)
Definition commit_result : M unit :=
  let! r <- np2srv_sr_commit;
  if failed r then
    do! np2srv_sr_discard_changes;
    goto_finish
  else set_ereply nc_server_reply_ok.

(** Lines 42-147, up to the label [finish]. *)
Definition op_deleteconfig_body (ly_ctx : list lys_module) (rpc : request)
  : M unit :=
  let! r <- np2srv_sr_check_exec_permission "/ietf-netconf:delete-config";
  if failed r then goto_finish
  else
    let! tgt <- resolve_target rpc;
    match snd tgt with
    | Some target_url => delete_url target_url
    | None =>
        do! switch_and_refresh (fst tgt);
        do! module_iter ly_ctx;
        commit_result
    end.

(** [op_deleteconfig]: the session enters with [sessions->ds = sessions_ds],
    [ereply] starts as NULL, and the function returns [ereply] as it is at
    [finish].  The result is the final state: its [ereply] is the returned
    reply, its [ds] the session's datastore afterwards and its [log] the
    calls of this invocation. *)
Definition op_deleteconfig (ly_ctx : list lys_module) (rpc : request)
           (sessions_ds : sr_datastore_t) : state :=
  snd (op_deleteconfig_body ly_ctx rpc (mk_state sessions_ds None [])).

End Handler.

(** ** The bulk eraser as a function of the schema

    The sibling loop stops at the first node it does not skip, so all it
    takes from a module is whether such a node exists. *)

Definition qualifying (md : lys_module) : bool :=
  existsb (fun iter => negb (skipped iter)) (data md).

(** The paths the module loop asks sysrepo to delete, in registry order. *)
Definition delete_paths (mods : list lys_module) : list string :=
  List.map (fun md => snprintf_path (name md)) (List.filter qualifying mods).

(** One delete request with its failure handling (lines 128-132). *)
Definition delete_domain (E : env) (path : string) : M unit :=
  let! r <- np2srv_sr_delete_item E path 0;
  if failed r then
    do! np2srv_sr_discard_changes E;
    goto_finish
  else ret tt.

(** The log entry of a delete request that succeeded. *)
Definition deleted (path : string) : entry := (delete_item path 0, 0%Z).

(** ** The datastore path: lines 103-146 as one computation *)

Definition erase_store (E : env) (target : sr_datastore_t)
           (mods : list lys_module) : M unit :=
  do! switch_and_refresh E target;
  do! module_iter E mods;
  commit_result E.

(** The log once the session is bound to [target]: nothing was asked when it
    already was, otherwise one switch that succeeded. *)
Definition bound_log (E : env) (target : sr_datastore_t) (s : state)
           (h : list entry) : Prop :=
  (ds s = target /\ h = log s) \/
  (ds s <> target /\
   rc (E (log s) (session_switch_ds target)) = 0%Z /\
   h = log s ++ [(session_switch_ds target, 0%Z)]).

(** The five ways through the datastore path, each with the state it ends
    in.  [paths] are the delete requests the schema calls for. *)
Inductive store_flow (E : env) (target : sr_datastore_t) (paths : list string)
          (s : state) : state -> Prop :=
| sf_switch_failed :
    ds s <> target ->
    forall r, r = E (log s) (session_switch_ds target) ->
    failed (rc r) = true ->
    store_flow E target paths s
      (mk_state (ds s) (out r) (log s ++ [(session_switch_ds target, rc r)]))
| sf_refresh_failed :
    forall h, bound_log E target s h ->
    forall r, r = E h session_refresh ->
    failed (rc r) = true ->
    store_flow E target paths s
      (mk_state target (out r) (h ++ [(session_refresh, rc r)]))
| sf_delete_failed :
    forall h, bound_log E target s h ->
    rc (E h session_refresh) = 0%Z ->
    forall done p rest, paths = done ++ p :: rest ->
    forall h', h' = h ++ (session_refresh, 0%Z) :: List.map deleted done ->
    forall r, r = E h' (delete_item p 0) ->
    failed (rc r) = true ->
    forall r', r' = rc (E (h' ++ [(delete_item p 0, rc r)]) discard_changes) ->
    store_flow E target paths s
      (mk_state target (out r)
                (h' ++ [(delete_item p 0, rc r); (discard_changes, r')]))
| sf_commit_failed :
    forall h, bound_log E target s h ->
    rc (E h session_refresh) = 0%Z ->
    forall h', h' = h ++ (session_refresh, 0%Z) :: List.map deleted paths ->
    forall r, r = E h' commit ->
    failed (rc r) = true ->
    forall r', r' = rc (E (h' ++ [(commit, rc r)]) discard_changes) ->
    store_flow E target paths s
      (mk_state target (out r) (h' ++ [(commit, rc r); (discard_changes, r')]))
| sf_committed :
    forall h, bound_log E target s h ->
    rc (E h session_refresh) = 0%Z ->
    forall h', h' = h ++ (session_refresh, 0%Z) :: List.map deleted paths ->
    rc (E h' commit) = 0%Z ->
    store_flow E target paths s
      (mk_state target nc_server_reply_ok (h' ++ [(commit, 0%Z)])).

(** ** The whole handler, path by path *)

Definition exec_xpath : string := "/ietf-netconf:delete-config".
Definition target_xpath : string := "/ietf-netconf:delete-config/target/*".

(** The log after a permission check that passed and the lookup of the
    target. *)
Definition resolved_log : list entry :=
  [(check_exec_permission exec_xpath, 0%Z); (find_path target_xpath, 0%Z)].

Definition url_options : Z := Z.lor LYD_OPT_CONFIG LYD_OPT_STRICT.

Definition op_failed_error (msg : string) : nc_server_error :=
  nc_err_set_msg (nc_err NC_ERR_OP_FAILED NC_ERR_TYPE_APP) msg "en".

(** The three ways through the URL path (lines 81-100). *)
Inductive url_flow (E : env) (url : string) (s : state) : state -> Prop :=
| uf_import_failed :
    forall r, r = E (log s) (url_import url url_options) ->
    failed (rc r) = true ->
    url_flow E url s
      (mk_state (ds s)
         (nc_server_reply_add_err (out r)
            (op_failed_error
               "File at url does not appear to contain a valid config"))
         (log s ++ [(url_import url url_options, rc r)]))
| uf_init_failed :
    rc (E (log s) (url_import url url_options)) = 0%Z ->
    forall h, h = log s ++ [(url_import url url_options, 0%Z);
                            (free_withsiblings, 0%Z)] ->
    forall r, r = E h (url_init url) ->
    failed (rc r) = true ->
    url_flow E url s (mk_state (ds s) (out r) (h ++ [(url_init url, rc r)]))
| uf_initialised :
    rc (E (log s) (url_import url url_options)) = 0%Z ->
    forall h, h = log s ++ [(url_import url url_options, 0%Z);
                            (free_withsiblings, 0%Z)] ->
    rc (E h (url_init url)) = 0%Z ->
    url_flow E url s
      (mk_state (ds s) nc_server_reply_ok (h ++ [(url_init url, 0%Z)])).


(** ** Reading a log *)

(** The calls that reach the datastore engine. *)
Definition is_store_call (c : call) : bool :=
  match c with
  | session_switch_ds _ | session_refresh | delete_item _ _
  | discard_changes | commit => true
  | _ => false
  end.

Definition store_calls (l : list entry) : list entry :=
  List.filter (fun e => is_store_call (fst e)) l.

(** The paths of the delete requests in a log, in the order they were made. *)
Definition requested_deletes (l : list entry) : list string :=
  flat_map (fun e => match fst e with
                     | delete_item path _ => [path]
                     | _ => []
                     end) l.

Definition is_commit (c : call) : bool :=
  match c with commit => true | _ => false end.

Definition is_delete (c : call) : bool :=
  match c with delete_item _ _ => true | _ => false end.

Definition is_switch (c : call) : bool :=
  match c with session_switch_ds _ => true | _ => false end.

Definition is_url_import (c : call) : bool :=
  match c with url_import _ _ => true | _ => false end.

(** Whether a log holds a call of the given kind. *)
Definition calls (kind : call -> bool) (l : list entry) : bool :=
  existsb (fun e => kind (fst e)) l.

(** Whether a log holds a call of the given kind that failed. *)
Definition failures (kind : call -> bool) (l : list entry) : bool :=
  existsb (fun e => kind (fst e) && failed (snd e)) l.

(** Whether a log holds a call of the given kind that succeeded. *)
Definition successes (kind : call -> bool) (l : list entry) : bool :=
  existsb (fun e => kind (fst e) && negb (failed (snd e))) l.

(** ** The schema in the words of the specification *)

(** The node kinds the bulk eraser counts as data: container, list,
    leaf-list, leaf and the two any-content kinds. *)
Definition is_data_kind (k : LYS_NODE) : bool :=
  match k with
  | LYS_CONTAINER | LYS_LIST | LYS_LEAFLIST | LYS_LEAF
  | LYS_ANYXML | LYS_ANYDATA => true
  | _ => false
  end.

(** A node is writable when it is not flagged read-only. *)
Definition writable (iter : lys_node) : bool :=
  (Z.land (flags iter) LYS_CONFIG_R =? 0)%Z.

(** A domain carries configuration when one of its top-level nodes is a
    writable node of a data kind. *)
Definition has_config_node (md : lys_module) : Prop :=
  exists iter, In iter (data md) /\
               is_data_kind (nodetype iter) = true /\
               writable iter = true.

(** ** What the collaborators promise *)

(** A reply that carries at least one error. *)
Definition is_error (r : option nc_server_reply) : bool :=
  match r with
  | Some (NC_RPL_ERROR (_ :: _)) => true
  | _ => false
  end.

(** An error reply all of whose errors are access-denied. *)
Definition is_access_denied (r : option nc_server_reply) : bool :=
  match r with
  | Some (NC_RPL_ERROR (e :: errs)) =>
      forallb (fun e => match err_tag e with
                        | NC_ERR_ACCESS_DENIED => true
                        | _ => false
                        end) (e :: errs)
  | _ => false
  end.

(** Modelled from the spec: the bodies of [np2srv_sr_*], [op_url_import] and
    [op_url_init] are not in [op_deleteconfig.c].  Section 6 of the
    specification gives each of them the result "Error | None": a call that
    reports failure hands back an error.  In C terms, a non-zero return code
    comes with an error reply in [*ereply]. *)
Definition reports_errors (E : env) : Prop :=
  forall h c, failed (rc (E h c)) = true -> is_error (out (E h c)) = true.

(** Modelled from the spec: the body of [np2srv_sr_check_exec_permission] is
    not in [op_deleteconfig.c].  Sections 4.1 and 6: the permission checker
    answers a caller without execute permission with an Access-Denied
    error. *)
Definition denies_access (E : env) : Prop :=
  forall h xpath,
    failed (rc (E h (check_exec_permission xpath))) = true ->
    is_access_denied (out (E h (check_exec_permission xpath))) = true.

(** ** The datastore engine *)

(** Modelled from the spec: the datastore engine (sysrepo, reached through
    [np2srv_sr_*]) is not in [op_deleteconfig.c].  Sections 4.3, 4.4 and 6
    give its contract: a session is bound to one datastore; a delete request
    that succeeds is accumulated as an uncommitted change; a commit that
    succeeds applies the accumulated changes to the bound datastore as one
    transaction; discarding drops them; a call that fails changes nothing;
    switching and refreshing leave the stored configuration as it is.

    The stored configuration maps a datastore and a module name to that
    module's configuration data. *)
Record engine : Type := mk_engine {
  bound : sr_datastore_t;
  committed : gmap (Z * string) string;
  pending : list string
}.

(** Modelled from the spec: the path that addresses everything under a
    module, "delete domain:*" in section 4.4. *)
Definition module_path (m : string) : string := "/" +:+ m +:+ ":*".

(** Modelled from the spec: a delete under a module path removes that
    module's data from the datastore it is applied to, and nothing else. *)
Definition apply_delete (d : sr_datastore_t) (path : string)
           (c : gmap (Z * string) string) : gmap (Z * string) string :=
  filter (fun kv : (Z * string) * string =>
            ~ (fst (fst kv) = d /\ module_path (snd (fst kv)) = path)) c.

(** Modelled from the spec: the accumulated changes are applied in the
    order they were requested. *)
Definition apply_pending (d : sr_datastore_t) (paths : list string)
           (c : gmap (Z * string) string) : gmap (Z * string) string :=
  foldl (fun c path => apply_delete d path c) c paths.

(** Modelled from the spec: the effect of one call, with its outcome, on
    the engine.  The calls that are not datastore calls do not reach it. *)
Definition engine_step (eng : engine) (e : entry) : engine :=
  if failed (snd e) then eng
  else
    match fst e with
    | session_switch_ds d => mk_engine d (committed eng) (pending eng)
    | delete_item path _ =>
        mk_engine (bound eng) (committed eng) (pending eng ++ [path])
    | discard_changes => mk_engine (bound eng) (committed eng) []
    | commit =>
        mk_engine (bound eng)
                  (apply_pending (bound eng) (pending eng) (committed eng))
                  []
    | _ => eng
    end.

(** Modelled from the spec: the engine after the calls of a log. *)
Definition replay (eng : engine) (l : list entry) : engine :=
  foldl engine_step eng l.

(** The error the handler adds when the import fails (lines 87-88). *)
Definition invalid_config_error : nc_server_error :=
  mk_err NC_ERR_OP_FAILED NC_ERR_TYPE_APP
         (Some "File at url does not appear to contain a valid config")
         (Some "en").

(** ** Sample collaborators and inputs *)

(** Collaborators whose every call succeeds. *)
Definition env_ok : env := fun _ _ => mk_resp 0 None.

(** Collaborators whose [n]-th call of the invocation (counted from 0) fails
    with the reply [r]; every other call succeeds. *)
Definition env_fail_at (n : nat) (r : option nc_server_reply) : env :=
  fun h _ => if Nat.eqb (length h) n then mk_resp (-1) r else mk_resp 0 None.

Definition sample_error : nc_server_error :=
  mk_err NC_ERR_OP_FAILED NC_ERR_TYPE_APP (Some "Could not resolve host")
         (Some "en").

Definition sample_denied : nc_server_error :=
  mk_err NC_ERR_ACCESS_DENIED NC_ERR_TYPE_PROT
         (Some "Execute permission denied") (Some "en").

(** A registry of three modules: one container, one module with an RPC and a
    state leaf only, one with a grouping followed by a list. *)
Definition sample_ctx : list lys_module :=
  [ mk_module "ietf-interfaces" [mk_node LYS_CONTAINER LYS_CONFIG_W];
    mk_module "ietf-netconf-monitoring"
              [mk_node LYS_RPC 0%Z; mk_node LYS_LEAF LYS_CONFIG_R];
    mk_module "ietf-system"
              [mk_node LYS_GROUPING 0%Z; mk_node LYS_LIST LYS_CONFIG_W] ].

Definition sample_engine : engine :=
  mk_engine SR_DS_RUNNING
            (<[(SR_DS_STARTUP, "ietf-interfaces") := "<interfaces/>"]>
               (<[(SR_DS_RUNNING, "ietf-system") := "<system/>"]> ∅))
            [].

(** ** Proof support *)

Arguments snprintf_path mod_name : simpl never.
Arguments replay eng l : simpl never.

Ltac unfold_monad :=
  unfold bind, ret, goto_finish, set_ereply, get_ereply, get_ds, set_ds,
    invoke, invoke_noreply, note.

Ltac unfold_calls :=
  unfold np2srv_sr_check_exec_permission, lyd_find_path, op_url_import,
    lyd_free_withsiblings, op_url_init, np2srv_sr_session_switch_ds,
    np2srv_sr_session_refresh, np2srv_sr_delete_item,
    np2srv_sr_discard_changes, np2srv_sr_commit.

(** Case analysis on the way taken through a path, with fixed names for what
    each case brings. *)
Ltac invert_url_flow H :=
  inversion H as [r Hr Hf Hs | Hok h Hh r Hr Hf Hs | Hok h Hh Hn Hs].

Ltac invert_store_flow H :=
  inversion H as
      [Hne r Hr Hf Hs
      | h Hb r Hr Hf Hs
      | h Hb Hrf done p rest Hpaths h' Hh' r Hr Hf r' Hr' Hs
      | h Hb Hrf h' Hh' r Hr Hf r' Hr' Hs
      | h Hb Hrf h' Hh' Hc Hs].

(** ** The outcome of an invocation, read from its log *)

Definition is_refresh (c : call) : bool :=
  match c with session_refresh => true | _ => false end.

Definition is_discard (c : call) : bool :=
  match c with discard_changes => true | _ => false end.

Definition is_check (c : call) : bool :=
  match c with check_exec_permission _ => true | _ => false end.

Definition is_url_init (c : call) : bool :=
  match c with url_init _ => true | _ => false end.

(** The calls whose failure the handler answers with [discard_changes]
    (lines 129-131 and 141-143). *)
Definition rolls_back (c : call) : bool := is_delete c || is_commit c.

(** No call of the log failed. *)
Definition all_succeeded (l : list entry) : bool :=
  forallb (fun e => negb (failed (snd e))) l.

(** How many calls of a kind a log holds. *)
Definition count_calls (kind : call -> bool) (l : list entry) : nat :=
  length (List.filter (fun e => kind (fst e)) l).

(** The reply the handler returns when the call [c] fails after the calls
    [h]: the reply the call left, to which the import path adds its own error
    (line 89). *)
Definition failure_reply (E : env) (h : list entry) (c : call)
  : option nc_server_reply :=
  if is_url_import c
  then nc_server_reply_add_err (out (E h c)) invalid_config_error
  else out (E h c).

(** ** The module loop as a fold over the paths *)

Fixpoint delete_all (E : env) (paths : list string) : M unit :=
  match paths with
  | [] => ret tt
  | path :: rest =>
      do! delete_domain E path;
      delete_all E rest
  end.

(** ** One session, several requests *)

(** [sessions->ds] is a field of the session: what one invocation leaves
    there is what the next one finds.  An invocation comes with the
    collaborators' behaviour during it, the schema registry at that time and
    the request. *)
Fixpoint serve (URL_CAPABILITY : bool)
         (invocations : list (env * list lys_module * request))
         (sessions_ds : sr_datastore_t) : list state :=
  match invocations with
  | [] => []
  | (E, ly_ctx, rpc) :: rest =>
      let s := op_deleteconfig URL_CAPABILITY E ly_ctx rpc sessions_ds in
      s :: serve URL_CAPABILITY rest (ds s)
  end.

(** The datastore the session is bound to after the invocations. *)
Definition session_after (URL_CAPABILITY : bool)
           (invocations : list (env * list lys_module * request))
           (sessions_ds : sr_datastore_t) : sr_datastore_t :=
  List.last (List.map ds (serve URL_CAPABILITY invocations sessions_ds))
            sessions_ds.

(** ** Two runs that differ in what [discard_changes] answers *)

(** Two final states with the same binding, the same reply and the same
    calls, except possibly for the return code of a final
    [discard_changes]. *)
Definition same_but_discard (s1 s2 : state) : Prop :=
  ds s1 = ds s2 /\
  ereply s1 = ereply s2 /\
  (log s1 = log s2 \/
   exists h r1 r2, log s1 = h ++ [(discard_changes, r1)] /\
                   log s2 = h ++ [(discard_changes, r2)]).

(** Two computations that do the same from every state, or both jump to
    [finish] in states that are the same but for the discard. *)
Definition agree {A} (m1 m2 : M A) : Prop :=
  forall s, m1 s = m2 s \/
            (fst (m1 s) = None /\ fst (m2 s) = None /\
             same_but_discard (snd (m1 s)) (snd (m2 s))).

(** Collaborators that behave as [E] does, except that every
    [discard_changes] fails. *)
Definition env_discard_fails (E : env) : env :=
  fun h c => if is_discard c then mk_resp (-1) None else E h c.

(** * Properties *)

(** ** The scenarios of the specification, evaluated *)

(** Scenario A: the target is <startup>, the session is bound to another
    datastore, nothing fails. *)
Example scenario_startup_ok :
  op_deleteconfig true env_ok sample_ctx (mk_request "startup" None)
                  SR_DS_RUNNING =
  mk_state SR_DS_STARTUP nc_server_reply_ok
           [(check_exec_permission "/ietf-netconf:delete-config", 0%Z);
            (find_path "/ietf-netconf:delete-config/target/*", 0%Z);
            (session_switch_ds SR_DS_STARTUP, 0%Z);
            (session_refresh, 0%Z);
            (delete_item "/ietf-interfaces:*" 0, 0%Z);
            (delete_item "/ietf-system:*" 0, 0%Z);
            (commit, 0%Z)].
Proof. reflexivity. Qed.

(** Scenario A, the store: the startup data is gone, the running data is
    still there. *)
Example scenario_startup_ok_store :
  let s := op_deleteconfig true env_ok sample_ctx (mk_request "startup" None)
                           SR_DS_RUNNING in
  let eng := replay sample_engine (log s) in
  bound eng = SR_DS_STARTUP /\
  committed eng !! (SR_DS_STARTUP, "ietf-interfaces") = None /\
  committed eng !! (SR_DS_RUNNING, "ietf-system") = Some "<system/>" /\
  pending eng = [].
Proof. vm_compute. repeat split. Qed.

(** Scenario B: the delete of the second configuration-bearing module
    fails. *)
Example scenario_delete_fails :
  op_deleteconfig true (env_fail_at 5 (nc_server_reply_err sample_error))
                  sample_ctx (mk_request "startup" None) SR_DS_RUNNING =
  mk_state SR_DS_STARTUP (nc_server_reply_err sample_error)
           [(check_exec_permission "/ietf-netconf:delete-config", 0%Z);
            (find_path "/ietf-netconf:delete-config/target/*", 0%Z);
            (session_switch_ds SR_DS_STARTUP, 0%Z);
            (session_refresh, 0%Z);
            (delete_item "/ietf-interfaces:*" 0, 0%Z);
            (delete_item "/ietf-system:*" 0, (-1)%Z);
            (discard_changes, 0%Z)].
Proof. reflexivity. Qed.

(** A module name longer than the path buffer is cut. *)
Example snprintf_path_cut :
  String.length (snprintf_path (String.concat "" (repeat "m" 1100))) = 1023.
Proof. vm_compute. reflexivity. Qed.

(** ** Return codes *)

Lemma failed_false (r : Z) : failed r = false -> r = 0%Z.
Proof.
  unfold failed. intros H. apply negb_false_iff in H. now apply Z.eqb_eq.
Qed.

(** ** The module loop *)

Section BulkEraser.

Variable E : env.

Lemma tree_for_eq (mod_name : string) (iters : list lys_node) (s : state) :
  tree_for E mod_name iters s =
  if existsb (fun iter => negb (skipped iter)) iters
  then delete_domain E (snprintf_path mod_name) s
  else ret tt s.
Proof.
  induction iters as [|iter next IH]; simpl; [reflexivity|].
  destruct (skipped iter); simpl; [exact IH|reflexivity].
Qed.

Lemma module_iter_cons (md : lys_module) (rest : list lys_module) (s : state) :
  module_iter E (md :: rest) s =
  if qualifying md
  then (do! delete_domain E (snprintf_path (name md)); module_iter E rest) s
  else module_iter E rest s.
Proof.
  simpl. unfold bind at 1. rewrite tree_for_eq. fold (qualifying md).
  destruct (qualifying md); reflexivity.
Qed.

Lemma delete_paths_cons (md : lys_module) (rest : list lys_module) :
  delete_paths (md :: rest) =
  if qualifying md then snprintf_path (name md) :: delete_paths rest
  else delete_paths rest.
Proof. unfold delete_paths. simpl. now destruct (qualifying md). Qed.

(** What the module loop leaves behind.  When it falls through, every path
    was requested once, in order, and each request succeeded.  When it jumps
    to [finish], the requests before the failing one succeeded, the failing
    one is followed by [discard_changes] and by nothing else, and [ereply] is
    what the failing request left there. *)
Lemma module_iter_shape (mods : list lys_module) (s : state) :
  match module_iter E mods s with
  | (Some _, s') =>
      ds s' = ds s /\
      log s' = log s ++ List.map deleted (delete_paths mods) /\
      (delete_paths mods = [] -> s' = s)
  | (None, s') =>
      ds s' = ds s /\
      exists done p rest,
        delete_paths mods = done ++ p :: rest /\
        let h := log s ++ List.map deleted done in
        let r := E h (delete_item p 0) in
        failed (rc r) = true /\
        ereply s' = out r /\
        log s' = h ++ [(delete_item p 0, rc r);
                       (discard_changes,
                        rc (E (h ++ [(delete_item p 0, rc r)]) discard_changes))]
  end.
Proof.
  revert s. induction mods as [|md rest IH]; intros s.
  - simpl. rewrite app_nil_r. auto.
  - rewrite module_iter_cons, delete_paths_cons.
    destruct (qualifying md); [|apply IH].
    unfold bind at 1. unfold delete_domain. unfold_calls. unfold_monad.
    set (p := snprintf_path (name md)).
    destruct (failed (rc (E (log s) (delete_item p 0)))) eqn:Hr; simpl.
    + split; [reflexivity|].
      exists [], p, (delete_paths rest). simpl. rewrite app_nil_r.
      rewrite Hr, <- app_assoc. simpl. auto.
    + apply failed_false in Hr.
      set (s1 := mk_state _ _ _).
      specialize (IH s1).
      destruct (module_iter E rest s1) as [[[]|] s'].
      * destruct IH as (Hd & Hl & _). split; [exact Hd|].
        split; [|discriminate].
        rewrite Hl. subst s1. simpl. rewrite Hr, <- app_assoc. reflexivity.
      * destruct IH as (Hd & done & q & rest' & Hp & Hf & He & Hl).
        split; [exact Hd|].
        exists (p :: done), q, rest'. split; [now rewrite Hp|].
        subst s1. simpl in *. rewrite Hr in *.
        rewrite <- !app_assoc in *. simpl in *. auto.
Qed.

End BulkEraser.

Lemma switch_and_refresh_shape (E : env) (target : sr_datastore_t) (s : state) :
  match switch_and_refresh E target s with
  | (Some _, s') =>
      exists h, bound_log E target s h /\
                rc (E h session_refresh) = 0%Z /\
                ds s' = target /\
                log s' = h ++ [(session_refresh, 0%Z)]
  | (None, s') =>
      forall paths, store_flow E target paths s s'
  end.
Proof.
  unfold switch_and_refresh. unfold_calls. unfold_monad. simpl.
  destruct (ds s =? target)%Z eqn:Hd; simpl.
  - apply Z.eqb_eq in Hd.
    destruct (failed (rc (E (log s) session_refresh))) eqn:Hr.
    + intros paths. rewrite Hd.
      eapply sf_refresh_failed with (h := log s); eauto.
      left; auto.
    + apply failed_false in Hr. exists (log s). rewrite Hr.
      repeat split; auto. left; auto.
  - apply Z.eqb_neq in Hd.
    destruct (failed (rc (E (log s) (session_switch_ds target)))) eqn:Hs; simpl.
    + intros paths. eapply sf_switch_failed; eauto.
    + apply failed_false in Hs. rewrite Hs.
      assert (Hb : bound_log E target s
                     (log s ++ [(session_switch_ds target, 0%Z)]))
        by (right; auto).
      destruct (failed (rc (E (log s ++ [(session_switch_ds target, 0%Z)])
                             session_refresh))) eqn:Hr.
      * intros paths. eapply sf_refresh_failed; eauto.
      * apply failed_false in Hr. eexists. rewrite Hr. repeat split; eauto.
Qed.

Lemma erase_store_shape (E : env) (target : sr_datastore_t)
      (mods : list lys_module) (s : state) :
  store_flow E target (delete_paths mods) s
             (snd (erase_store E target mods s)).
Proof.
  unfold erase_store. unfold bind at 1.
  pose proof (switch_and_refresh_shape E target s) as Hsw.
  destruct (switch_and_refresh E target s) as [[[]|] s1]; [|apply Hsw].
  destruct Hsw as (h & Hb & Hrf & Hd1 & Hl1).
  unfold bind at 1.
  pose proof (module_iter_shape E mods s1) as Hit.
  destruct (module_iter E mods s1) as [[[]|] s2].
  - destruct Hit as (Hd2 & Hl2 & _).
    destruct s2 as [d2 e2 l2]. simpl in Hd2, Hl2.
    rewrite Hd1 in Hd2. rewrite Hl1, <- app_assoc in Hl2. simpl in Hl2.
    subst d2. remember (delete_paths mods) as paths eqn:Hpaths.
    clear Hpaths Hl1 Hd1.
    unfold commit_result. unfold_calls. unfold_monad. cbn [log ds ereply].
    destruct (failed (rc (E l2 commit))) eqn:Hc; cbn [snd log ds ereply].
    + rewrite <- app_assoc. cbn [app].
      eapply sf_commit_failed; eauto.
    + apply failed_false in Hc. rewrite Hc.
      eapply sf_committed; eauto.
  - destruct Hit as (Hd2 & done & p & rest & Hp & Hf & He & Hl2).
    destruct s2 as [d2 e2 l2]. cbn [snd log ds ereply] in *.
    assert (Hh : (h ++ [(session_refresh, 0%Z)]) ++ List.map deleted done =
                 h ++ (session_refresh, 0%Z) :: List.map deleted done)
      by (rewrite <- app_assoc; reflexivity).
    rewrite Hd1 in Hd2. rewrite Hl1, Hh in *.
    subst d2 e2 l2.
    eapply sf_delete_failed; eauto.
Qed.

Section Paths.

Variable URL_CAPABILITY : bool.
Variable E : env.
Variable ly_ctx : list lys_module.
Variable rpc : request.
Variable d0 : sr_datastore_t.

Let r0 := E [] (check_exec_permission exec_xpath).

Lemma op_denied :
  failed (rc r0) = true ->
  op_deleteconfig URL_CAPABILITY E ly_ctx rpc d0 =
  mk_state d0 (out r0) [(check_exec_permission exec_xpath, rc r0)].
Proof.
  intros H. unfold op_deleteconfig, op_deleteconfig_body.
  unfold_calls. unfold_monad. cbn [log ds ereply app].
  fold exec_xpath. fold r0. now rewrite H.
Qed.

(** Past the permission check the handler is the resolution of the target
    followed by one of the two paths. *)
Lemma op_permitted :
  failed (rc r0) = false ->
  op_deleteconfig URL_CAPABILITY E ly_ctx rpc d0 =
  snd ((let! tgt <- resolve_target URL_CAPABILITY rpc;
        match snd tgt with
        | Some target_url => delete_url E target_url
        | None => erase_store E (fst tgt) ly_ctx
        end)
         (mk_state d0 (out r0) [(check_exec_permission exec_xpath, 0%Z)])).
Proof.
  intros H. unfold op_deleteconfig, op_deleteconfig_body.
  unfold np2srv_sr_check_exec_permission.
  unfold bind at 1. unfold invoke at 1. cbn [log ds ereply app].
  fold exec_xpath. fold r0. rewrite H.
  apply failed_false in H. rewrite H. reflexivity.
Qed.

(** Every tag but "url" leads to the datastore path with target 0. *)
Lemma op_datastore :
  failed (rc r0) = false ->
  String.eqb (dsname rpc) "url" = false ->
  op_deleteconfig URL_CAPABILITY E ly_ctx rpc d0 =
  snd (erase_store E 0%Z ly_ctx (mk_state d0 (out r0) resolved_log)).
Proof.
  intros H Hu. rewrite (op_permitted H).
  unfold resolve_target, lyd_find_path. unfold_monad.
  cbn [log ds ereply app]. rewrite Hu.
  destruct (String.eqb (dsname rpc) "startup"); reflexivity.
Qed.

Lemma op_url_unsupported :
  failed (rc r0) = false ->
  String.eqb (dsname rpc) "url" = true ->
  URL_CAPABILITY = false ->
  op_deleteconfig URL_CAPABILITY E ly_ctx rpc d0 =
  mk_state d0
           (nc_server_reply_err (op_failed_error "<url> source not supported"))
           resolved_log.
Proof.
  intros H Hu Hc. rewrite (op_permitted H).
  unfold resolve_target, lyd_find_path. unfold_monad.
  cbn [log ds ereply app]. rewrite Hu, Hc.
  apply String.eqb_eq in Hu. rewrite Hu. reflexivity.
Qed.

Lemma op_url_missing :
  failed (rc r0) = false ->
  String.eqb (dsname rpc) "url" = true ->
  URL_CAPABILITY = true ->
  value_str rpc = None ->
  op_deleteconfig URL_CAPABILITY E ly_ctx rpc d0 =
  mk_state d0 (nc_server_reply_err (op_failed_error "Missing target url"))
           resolved_log.
Proof.
  intros H Hu Hc Hv. rewrite (op_permitted H).
  unfold resolve_target, lyd_find_path. unfold_monad.
  cbn [log ds ereply app]. rewrite Hu, Hc, Hv.
  apply String.eqb_eq in Hu. rewrite Hu. reflexivity.
Qed.

Lemma op_url :
  failed (rc r0) = false ->
  String.eqb (dsname rpc) "url" = true ->
  URL_CAPABILITY = true ->
  forall url, value_str rpc = Some url ->
  op_deleteconfig URL_CAPABILITY E ly_ctx rpc d0 =
  snd (delete_url E url (mk_state d0 (out r0) resolved_log)).
Proof.
  intros H Hu Hc url Hv. rewrite (op_permitted H).
  unfold resolve_target, lyd_find_path. unfold_monad.
  cbn [log ds ereply app]. rewrite Hu, Hc, Hv.
  apply String.eqb_eq in Hu. rewrite Hu. reflexivity.
Qed.

End Paths.

Lemma delete_url_shape (E : env) (url : string) (s : state) :
  url_flow E url s (snd (delete_url E url s)).
Proof.
  unfold delete_url. unfold_calls. unfold_monad. cbn [log ds ereply].
  fold url_options.
  destruct (failed (rc (E (log s) (url_import url url_options)))) eqn:Hi;
    cbn [snd log ds ereply].
  - eapply uf_import_failed; eauto.
  - apply failed_false in Hi. rewrite Hi.
    assert (Hh : (log s ++ [(url_import url url_options, 0%Z)]) ++
                 [(free_withsiblings, 0%Z)] =
                 log s ++ [(url_import url url_options, 0%Z);
                           (free_withsiblings, 0%Z)])
      by (rewrite <- app_assoc; reflexivity).
    rewrite Hh. clear Hh.
    set (h := log s ++ [(url_import url url_options, 0%Z);
                        (free_withsiblings, 0%Z)]).
    destruct (failed (rc (E h (url_init url)))) eqn:Hn; cbn [snd].
    + eapply uf_init_failed; eauto.
    + apply failed_false in Hn. rewrite Hn.
      cbv beta iota. cbn [snd log ds ereply].
      eapply uf_initialised; eauto.
Qed.


(** ** Facts about logs and the engine *)

Lemma replay_app (eng : engine) (l1 l2 : list entry) :
  replay eng (l1 ++ l2) = replay (replay eng l1) l2.
Proof. unfold replay. apply foldl_app. Qed.

Lemma engine_step_frame (eng : engine) (e : entry) :
  is_store_call (fst e) = false -> engine_step eng e = eng.
Proof.
  unfold engine_step. destruct e as [c r]; simpl.
  destruct (failed r); [reflexivity|].
  destruct c; simpl; intros H; try reflexivity; discriminate.
Qed.

(** A log without datastore calls leaves the engine as it was. *)
Lemma replay_frame (l : list entry) (eng : engine) :
  store_calls l = [] -> replay eng l = eng.
Proof.
  revert eng. induction l as [|e l IH]; intros eng; [reflexivity|].
  unfold store_calls in *. cbn [List.filter].
  destruct (is_store_call (fst e)) eqn:He; [discriminate|].
  intros H. unfold replay in *. cbn [foldl].
  rewrite engine_step_frame by exact He. now apply IH.
Qed.

Lemma eqb_url_false (rpc : request) :
  dsname rpc <> "url" -> String.eqb (dsname rpc) "url" = false.
Proof. intros H. now apply String.eqb_neq. Qed.

Lemma eqb_url_true (rpc : request) :
  dsname rpc = "url" -> String.eqb (dsname rpc) "url" = true.
Proof. intros H. now apply String.eqb_eq. Qed.

Lemma env_fail_at_reports (n : nat) (e : nc_server_error) :
  reports_errors (env_fail_at n (nc_server_reply_err e)).
Proof.
  intros h c. unfold env_fail_at.
  destruct (Nat.eqb (length h) n); simpl; [reflexivity|discriminate].
Qed.

Lemma env_fail_at_denies (n : nat) :
  denies_access (env_fail_at n (nc_server_reply_err sample_denied)).
Proof.
  intros h c. unfold env_fail_at.
  destruct (Nat.eqb (length h) n); simpl; [reflexivity|discriminate].
Qed.

(** ** C2: permission short-circuit *)

(** C2.  When the permission check reports that the caller may not execute
    delete-config, the handler returns the checker's Access-Denied reply at
    once: the permission check is the only call of the invocation (no target
    lookup, no URL call, no datastore call), the session stays bound to the
    datastore it was bound to, and the engine is left as it was. *)
Theorem permission_short_circuit (URL_CAPABILITY : bool) (E : env)
        (ly_ctx : list lys_module) (rpc : request) (d0 : sr_datastore_t) :
  denies_access E ->
  failed (rc (E [] (check_exec_permission exec_xpath))) = true ->
  let r := E [] (check_exec_permission exec_xpath) in
  let s := op_deleteconfig URL_CAPABILITY E ly_ctx rpc d0 in
  is_access_denied (ereply s) = true /\
  ereply s = out r /\
  log s = [(check_exec_permission exec_xpath, rc r)] /\
  ds s = d0 /\
  forall eng, replay eng (log s) = eng.
Proof.
  intros Hden Hfail r s. subst s.
  rewrite (op_denied URL_CAPABILITY E ly_ctx rpc d0 Hfail). simpl.
  repeat split.
  - apply Hden. exact Hfail.
  - intros eng. apply replay_frame. reflexivity.
Qed.

Lemma permission_short_circuit_witness :
  let E := env_fail_at 0 (nc_server_reply_err sample_denied) in
  let s := op_deleteconfig true E sample_ctx (mk_request "startup" None)
                           SR_DS_RUNNING in
  failed (rc (E [] (check_exec_permission exec_xpath))) = true /\
  is_access_denied (ereply s) = true /\
  log s = [(check_exec_permission exec_xpath, (-1)%Z)] /\
  ds s = SR_DS_RUNNING.
Proof.
  pose proof (permission_short_circuit true
                (env_fail_at 0 (nc_server_reply_err sample_denied))
                sample_ctx (mk_request "startup" None) SR_DS_RUNNING
                (env_fail_at_denies 0) eq_refl) as H.
  cbv zeta in H. destruct H as (Ha & _ & Hl & Hd & _).
  split; [reflexivity|]. split; [exact Ha|]. split; [exact Hl|]. exact Hd.
Defined.

(** ** C4: capability gating *)

(** C4.  In a build without the URL capability, a request whose target is
    <url> never reaches the datastore: the log holds no switch, refresh,
    delete, discard or commit, the session's datastore is unchanged and the
    engine is left as it was.  For a caller that passed the permission check
    the reply is the single Operation-Failed error
    "<url> source not supported", and the only calls are the permission
    check and the target lookup. *)
Theorem url_capability_gating (E : env) (ly_ctx : list lys_module)
        (rpc : request) (d0 : sr_datastore_t) :
  dsname rpc = "url" ->
  let s := op_deleteconfig false E ly_ctx rpc d0 in
  store_calls (log s) = [] /\
  ds s = d0 /\
  (forall eng, replay eng (log s) = eng) /\
  (failed (rc (E [] (check_exec_permission exec_xpath))) = false ->
   ereply s =
     Some (NC_RPL_ERROR [mk_err NC_ERR_OP_FAILED NC_ERR_TYPE_APP
                                (Some "<url> source not supported")
                                (Some "en")]) /\
   log s = resolved_log).
Proof.
  intros Hu s. subst s. apply eqb_url_true in Hu.
  destruct (failed (rc (E [] (check_exec_permission exec_xpath)))) eqn:Hp.
  - rewrite (op_denied false E ly_ctx rpc d0 Hp). simpl.
    repeat split; try discriminate.
    intros eng. apply replay_frame. reflexivity.
  - rewrite (op_url_unsupported false E ly_ctx rpc d0 Hp Hu eq_refl). simpl.
    repeat split.
Qed.

Lemma url_capability_gating_witness :
  let rpc := mk_request "url" (Some "ftp://backup.example/startup.xml") in
  let s := op_deleteconfig false env_ok sample_ctx rpc SR_DS_RUNNING in
  dsname rpc = "url" /\
  store_calls (log s) = [] /\
  ereply s =
    Some (NC_RPL_ERROR [mk_err NC_ERR_OP_FAILED NC_ERR_TYPE_APP
                               (Some "<url> source not supported")
                               (Some "en")]).
Proof.
  pose proof (url_capability_gating env_ok sample_ctx
                (mk_request "url" (Some "ftp://backup.example/startup.xml"))
                SR_DS_RUNNING eq_refl) as H.
  cbv zeta in H. destruct H as (Hs & _ & _ & Hr).
  destruct (Hr eq_refl) as (He & _).
  split; [reflexivity|]. split; [exact Hs|]. exact He.
Defined.

(** ** C3: a <url> target without a location *)

(** C3, as the code has it.  With the URL capability, a request whose target
    is <url> and whose location string is absent (a NULL [value_str]) is
    answered, for a caller that passed the permission check, with the single
    Operation-Failed error "Missing target url"; the location is not
    fetched, and the permission check and the target lookup are the only
    calls. *)
Theorem missing_url_rejected (E : env) (ly_ctx : list lys_module)
        (rpc : request) (d0 : sr_datastore_t) :
  dsname rpc = "url" ->
  value_str rpc = None ->
  failed (rc (E [] (check_exec_permission exec_xpath))) = false ->
  let s := op_deleteconfig true E ly_ctx rpc d0 in
  ereply s =
    Some (NC_RPL_ERROR [mk_err NC_ERR_OP_FAILED NC_ERR_TYPE_APP
                               (Some "Missing target url") (Some "en")]) /\
  calls is_url_import (log s) = false /\
  log s = resolved_log /\
  ds s = d0.
Proof.
  intros Hu Hv Hp s. subst s. apply eqb_url_true in Hu.
  rewrite (op_url_missing true E ly_ctx rpc d0 Hp Hu eq_refl Hv). simpl.
  repeat split.
Qed.

Lemma missing_url_rejected_witness :
  let rpc := mk_request "url" None in
  let s := op_deleteconfig true env_ok sample_ctx rpc SR_DS_RUNNING in
  value_str rpc = None /\
  ereply s =
    Some (NC_RPL_ERROR [mk_err NC_ERR_OP_FAILED NC_ERR_TYPE_APP
                               (Some "Missing target url") (Some "en")]) /\
  calls is_url_import (log s) = false.
Proof.
  pose proof (missing_url_rejected env_ok sample_ctx (mk_request "url" None)
                SR_DS_RUNNING eq_refl eq_refl eq_refl) as H.
  cbv zeta in H. destruct H as (He & Hc & _).
  split; [reflexivity|]. split; [exact He|]. exact Hc.
Defined.

(** C3 fails for a location that is present but empty: the handler tests
    the string pointer only, so the empty location is handed to
    [op_url_import].  Here the fetch of the empty location fails, and the
    reply is the import's error followed by the import-validation error, not
    "Missing target url". *)
Lemma empty_url_is_fetched :
  let E := env_fail_at 2 (nc_server_reply_err sample_error) in
  let rpc := mk_request "url" (Some "") in
  let s := op_deleteconfig true E sample_ctx rpc SR_DS_RUNNING in
  dsname rpc = "url" /\
  value_str rpc = Some "" /\
  failed (rc (E [] (check_exec_permission exec_xpath))) = false /\
  log s = resolved_log ++ [(url_import "" url_options, (-1)%Z)] /\
  calls is_url_import (log s) = true /\
  ereply s <>
    Some (NC_RPL_ERROR [mk_err NC_ERR_OP_FAILED NC_ERR_TYPE_APP
                               (Some "Missing target url") (Some "en")]).
Proof.
  vm_compute. repeat split; discriminate.
Qed.

(** ** C5: the location does not hold a valid configuration *)

(** C5, as the code has it.  On the URL path, when [op_url_import] fails and
    reports its failure as an error reply, the handler appends the
    Operation-Failed error "File at url does not appear to contain a valid
    config" to that reply and returns it: the reply carries the import's
    errors followed by this one.  Nothing is called after the import: the
    location is not reinitialised, no datastore call is made, and the
    session's datastore is unchanged. *)
Theorem import_failure_reply (E : env) (ly_ctx : list lys_module)
        (rpc : request) (d0 : sr_datastore_t) (url : string)
        (errs : list nc_server_error) :
  dsname rpc = "url" ->
  value_str rpc = Some url ->
  failed (rc (E [] (check_exec_permission exec_xpath))) = false ->
  failed (rc (E resolved_log (url_import url url_options))) = true ->
  out (E resolved_log (url_import url url_options)) =
    Some (NC_RPL_ERROR errs) ->
  let s := op_deleteconfig true E ly_ctx rpc d0 in
  ereply s = Some (NC_RPL_ERROR (errs ++ [invalid_config_error])) /\
  log s = resolved_log ++
          [(url_import url url_options,
            rc (E resolved_log (url_import url url_options)))] /\
  store_calls (log s) = [] /\
  ds s = d0 /\
  forall eng, replay eng (log s) = eng.
Proof.
  intros Hu Hv Hp Hi Ho s. subst s. apply eqb_url_true in Hu.
  rewrite (op_url true E ly_ctx rpc d0 Hp Hu eq_refl url Hv).
  pose proof (delete_url_shape E url
                (mk_state d0 (out (E [] (check_exec_permission exec_xpath)))
                          resolved_log)) as Hflow.
  invert_url_flow Hflow;
    cbn [log ds ereply] in *.
  - subst r. rewrite Ho. cbn [log ds ereply nc_server_reply_add_err].
    split; [reflexivity|]. split; [reflexivity|]. split; [reflexivity|].
    split; [reflexivity|].
    intros eng. now apply replay_frame.
  - rewrite Hok in Hi. discriminate.
  - rewrite Hok in Hi. discriminate.
Qed.

Lemma import_failure_reply_witness :
  let E := env_fail_at 2 (nc_server_reply_err sample_error) in
  let rpc := mk_request "url" (Some "http://backup.example/startup.xml") in
  let s := op_deleteconfig true E sample_ctx rpc SR_DS_RUNNING in
  failed (rc (E resolved_log
                (url_import "http://backup.example/startup.xml" url_options)))
  = true /\
  ereply s = Some (NC_RPL_ERROR [sample_error; invalid_config_error]) /\
  store_calls (log s) = [].
Proof.
  pose proof (import_failure_reply
                (env_fail_at 2 (nc_server_reply_err sample_error)) sample_ctx
                (mk_request "url" (Some "http://backup.example/startup.xml"))
                SR_DS_RUNNING "http://backup.example/startup.xml"
                [sample_error] eq_refl eq_refl eq_refl eq_refl eq_refl) as H.
  cbv zeta in H. destruct H as (He & _ & Hs & _).
  split; [reflexivity|]. split; [exact He|]. exact Hs.
Defined.

(** C5 fails as stated: the reply of a failed import is not the single
    Operation-Failed error.  Here the fetch fails with one error of its own,
    and the handler's reply holds two errors. *)
Lemma import_failure_not_single :
  let E := env_fail_at 2 (nc_server_reply_err sample_error) in
  let rpc := mk_request "url" (Some "http://backup.example/startup.xml") in
  let s := op_deleteconfig true E sample_ctx rpc SR_DS_RUNNING in
  failed (rc (E [] (check_exec_permission exec_xpath))) = false /\
  failed (rc (E resolved_log
                (url_import "http://backup.example/startup.xml" url_options)))
  = true /\
  ereply s = Some (NC_RPL_ERROR [sample_error; invalid_config_error]) /\
  ereply s <> Some (NC_RPL_ERROR [invalid_config_error]).
Proof.
  vm_compute. repeat split; discriminate.
Qed.

(** ** C9: the URL path leaves the datastore alone *)

(** C9.  With the URL capability, a request whose target is <url> with a
    location makes no datastore call at all: the log holds no switch,
    refresh, delete, discard or commit, the session's datastore is
    unchanged, and the engine (bound datastore, stored configuration,
    uncommitted changes) is left as it was.  When the permission check and
    the import succeed, the calls are exactly the import, the release of the
    parsed document and the reinitialisation of the location, in this
    order. *)
Theorem url_path_frame (E : env) (ly_ctx : list lys_module) (rpc : request)
        (d0 : sr_datastore_t) (url : string) :
  dsname rpc = "url" ->
  value_str rpc = Some url ->
  let s := op_deleteconfig true E ly_ctx rpc d0 in
  store_calls (log s) = [] /\
  ds s = d0 /\
  (forall eng, replay eng (log s) = eng) /\
  (failed (rc (E [] (check_exec_permission exec_xpath))) = false ->
   failed (rc (E resolved_log (url_import url url_options))) = false ->
   exists r,
     log s = resolved_log ++
             [(url_import url url_options, 0%Z);
              (free_withsiblings, 0%Z);
              (url_init url, r)] /\
     (failed r = false -> ereply s = nc_server_reply_ok)).
Proof.
  intros Hu Hv s. subst s. apply eqb_url_true in Hu.
  destruct (failed (rc (E [] (check_exec_permission exec_xpath)))) eqn:Hp.
  - rewrite (op_denied true E ly_ctx rpc d0 Hp). cbn [log ds ereply].
    split; [reflexivity|]. split; [reflexivity|].
    split; [intros eng; now apply replay_frame|].
    discriminate.
  - rewrite (op_url true E ly_ctx rpc d0 Hp Hu eq_refl url Hv).
    pose proof (delete_url_shape E url
                  (mk_state d0 (out (E [] (check_exec_permission exec_xpath)))
                            resolved_log)) as Hflow.
    invert_url_flow Hflow;
      cbn [log ds ereply] in *.
    + subst r.
      split; [reflexivity|]. split; [reflexivity|].
      split; [intros eng; now apply replay_frame|].
      intros _ Hi. rewrite Hi in Hf. discriminate.
    + subst h.
      split; [reflexivity|]. split; [reflexivity|].
      split; [intros eng; now apply replay_frame|].
      intros _ _. exists (rc r). split; [reflexivity|].
      intros Hr'. rewrite Hr' in Hf. discriminate.
    + subst h.
      split; [reflexivity|]. split; [reflexivity|].
      split; [intros eng; now apply replay_frame|].
      intros _ _. exists 0%Z. split; reflexivity.
Qed.

Lemma url_path_frame_witness :
  let rpc := mk_request "url" (Some "file:///etc/backup/startup.xml") in
  let s := op_deleteconfig true env_ok sample_ctx rpc SR_DS_RUNNING in
  value_str rpc = Some "file:///etc/backup/startup.xml" /\
  store_calls (log s) = [] /\
  ds s = SR_DS_RUNNING /\
  replay sample_engine (log s) = sample_engine.
Proof.
  pose proof (url_path_frame env_ok sample_ctx
                (mk_request "url" (Some "file:///etc/backup/startup.xml"))
                SR_DS_RUNNING "file:///etc/backup/startup.xml"
                eq_refl eq_refl) as H.
  cbv zeta in H. destruct H as (Hs & Hd & He & _).
  split; [reflexivity|]. split; [exact Hs|]. split; [exact Hd|]. apply He.
Defined.

(** ** C10: a target that is neither <startup> nor <url> *)

Lemma failed_zero (E : env) :
  (forall h c, rc (E h c) = 0%Z) -> forall h c, failed (rc (E h c)) = false.
Proof. intros H h c. now rewrite H. Qed.

(** With collaborators that never fail, the datastore path runs to the
    commit. *)
Lemma erase_store_all_ok (E : env) (target : sr_datastore_t)
      (mods : list lys_module) (s : state) :
  (forall h c, rc (E h c) = 0%Z) ->
  snd (erase_store E target mods s) =
  mk_state target nc_server_reply_ok
           (log s ++
            (if (ds s =? target)%Z then []
             else [(session_switch_ds target, 0%Z)]) ++
            (session_refresh, 0%Z) ::
            List.map deleted (delete_paths mods) ++ [(commit, 0%Z)]).
Proof.
  intros Hok. pose proof (failed_zero E Hok) as Hnf.
  pose proof (erase_store_shape E target mods s) as Hflow.
  invert_store_flow Hflow;
    try (subst r; rewrite Hnf in Hf; discriminate).
  f_equal. subst h'.
  destruct Hb as [[Hd Hh] | (Hd & _ & Hh)]; subst h.
  - apply Z.eqb_eq in Hd. rewrite Hd. rewrite <- app_assoc. reflexivity.
  - apply Z.eqb_neq in Hd. rewrite Hd. rewrite <- !app_assoc. reflexivity.
Qed.

(** C10.  A request whose target is neither <startup> nor <url> (for
    example <running> or <candidate>) is not rejected: the handler treats it
    exactly as a request for <startup>.  The local [target] keeps its initial
    value 0, which is [SR_DS_STARTUP], so past the permission check the
    handler is the datastore path on the startup datastore; when no
    collaborator fails, the session ends bound to the startup datastore, the
    startup datastore is the one switched to, every configuration-bearing
    module is deleted there, the changes are committed and the reply is
    ok. *)
Theorem default_target_is_startup (URL_CAPABILITY : bool) (E : env)
        (ly_ctx : list lys_module) (rpc : request) (d0 : sr_datastore_t) :
  dsname rpc <> "startup" ->
  dsname rpc <> "url" ->
  let s := op_deleteconfig URL_CAPABILITY E ly_ctx rpc d0 in
  s = op_deleteconfig URL_CAPABILITY E ly_ctx
                      (mk_request "startup" (value_str rpc)) d0 /\
  (failed (rc (E [] (check_exec_permission exec_xpath))) = false ->
   s = snd (erase_store E SR_DS_STARTUP ly_ctx
              (mk_state d0 (out (E [] (check_exec_permission exec_xpath)))
                        resolved_log))) /\
  ((forall h c, rc (E h c) = 0%Z) ->
   ereply s = nc_server_reply_ok /\
   ds s = SR_DS_STARTUP /\
   log s = resolved_log ++
           (if (d0 =? SR_DS_STARTUP)%Z then []
            else [(session_switch_ds SR_DS_STARTUP, 0%Z)]) ++
           (session_refresh, 0%Z) ::
           List.map deleted (delete_paths ly_ctx) ++ [(commit, 0%Z)]).
Proof.
  intros Hs Hu s. apply eqb_url_false in Hu.
  assert (Hpath : failed (rc (E [] (check_exec_permission exec_xpath))) = false ->
                  s = snd (erase_store E SR_DS_STARTUP ly_ctx
                             (mk_state d0
                                (out (E [] (check_exec_permission exec_xpath)))
                                resolved_log))).
  { intros Hp. subst s.
    now rewrite (op_datastore URL_CAPABILITY E ly_ctx rpc d0 Hp Hu). }
  split; [|split].
  - destruct (failed (rc (E [] (check_exec_permission exec_xpath)))) eqn:Hp.
    + subst s. now rewrite !(op_denied _ _ _ _ _ Hp).
    + rewrite (Hpath eq_refl).
      now rewrite (op_datastore URL_CAPABILITY E ly_ctx
                     (mk_request "startup" (value_str rpc)) d0 Hp eq_refl).
  - exact Hpath.
  - intros Hok. rewrite (Hpath (failed_zero E Hok _ _)).
    rewrite (erase_store_all_ok E SR_DS_STARTUP ly_ctx _ Hok).
    cbn [log ds ereply]. auto.
Qed.

Lemma default_target_is_startup_witness :
  let rpc := mk_request "running" None in
  let s := op_deleteconfig true env_ok sample_ctx rpc SR_DS_RUNNING in
  dsname rpc <> "startup" /\
  dsname rpc <> "url" /\
  s = op_deleteconfig true env_ok sample_ctx (mk_request "startup" None)
                      SR_DS_RUNNING /\
  ereply s = nc_server_reply_ok /\
  ds s = SR_DS_STARTUP /\
  log s = resolved_log ++
          [(session_switch_ds SR_DS_STARTUP, 0%Z);
           (session_refresh, 0%Z);
           (delete_item "/ietf-interfaces:*" 0, 0%Z);
           (delete_item "/ietf-system:*" 0, 0%Z);
           (commit, 0%Z)].
Proof.
  assert (H1 : dsname (mk_request "running" None) <> "startup")
    by discriminate.
  assert (H2 : dsname (mk_request "running" None) <> "url") by discriminate.
  pose proof (default_target_is_startup true env_ok sample_ctx
                (mk_request "running" None) SR_DS_RUNNING H1 H2) as H.
  cbv zeta in H. destruct H as (Heq & _ & Hall).
  destruct (Hall (fun _ _ => eq_refl)) as (Hr & Hd & Hl).
  split; [exact H1|]. split; [exact H2|]. split; [exact Heq|].
  split; [exact Hr|]. split; [exact Hd|]. exact Hl.
Defined.

(** ** C7: the store switcher *)

Lemma calls_app (kind : call -> bool) (l1 l2 : list entry) :
  calls kind (l1 ++ l2) = calls kind l1 || calls kind l2.
Proof. unfold calls. apply existsb_app. Qed.

Lemma calls_deleted (kind : call -> bool) (paths : list string) :
  (forall p, kind (delete_item p 0) = false) ->
  calls kind (List.map deleted paths) = false.
Proof.
  intros H. induction paths as [|p paths IH]; [reflexivity|].
  simpl. now rewrite H, IH.
Qed.

(** Every way through the datastore path but a failed switch goes through a
    refresh that comes right after the binding. *)
Lemma store_flow_refresh (E : env) (target : sr_datastore_t)
      (paths : list string) (s s' : state) :
  store_flow E target paths s s' ->
  ds s = target \/
  failed (rc (E (log s) (session_switch_ds target))) = false ->
  exists h tail,
    bound_log E target s h /\
    log s' = h ++ (session_refresh, rc (E h session_refresh)) :: tail /\
    ds s' = target /\
    calls is_switch tail = false /\
    (failed (rc (E h session_refresh)) = true ->
     tail = [] /\ ereply s' = out (E h session_refresh)).
Proof.
  intros Hflow Hsw.
  invert_store_flow Hflow; subst.
  - destruct Hsw as [Hsw|Hsw]; [contradiction|]. rewrite Hsw in Hf.
    discriminate.
  - exists h, []. cbn [log ds ereply]. split; [exact Hb|]. repeat split.
  - exists h, (List.map deleted done ++
               [(delete_item p 0,
                 rc (E (h ++ (session_refresh, 0%Z) :: List.map deleted done)
                       (delete_item p 0)));
                (discard_changes,
                 rc (E ((h ++ (session_refresh, 0%Z) :: List.map deleted done)
                          ++ [(delete_item p 0,
                               rc (E (h ++ (session_refresh, 0%Z)
                                        :: List.map deleted done)
                                     (delete_item p 0)))])
                       discard_changes))]).
    cbn [log ds ereply]. rewrite Hrf, <- app_assoc.
    split; [exact Hb|]. split; [reflexivity|]. split; [reflexivity|].
    split; [|discriminate].
    rewrite calls_app, calls_deleted by reflexivity. reflexivity.
  - exists h, (List.map deleted paths ++
               [(commit,
                 rc (E (h ++ (session_refresh, 0%Z) :: List.map deleted paths)
                       commit));
                (discard_changes,
                 rc (E ((h ++ (session_refresh, 0%Z) :: List.map deleted paths)
                          ++ [(commit,
                               rc (E (h ++ (session_refresh, 0%Z)
                                        :: List.map deleted paths) commit))])
                       discard_changes))]).
    cbn [log ds ereply]. rewrite Hrf, <- app_assoc.
    split; [exact Hb|]. split; [reflexivity|]. split; [reflexivity|].
    split; [|discriminate].
    rewrite calls_app, calls_deleted by reflexivity. reflexivity.
  - exists h, (List.map deleted paths ++ [(commit, 0%Z)]).
    cbn [log ds ereply]. rewrite Hrf, <- app_assoc.
    split; [exact Hb|]. split; [reflexivity|]. split; [reflexivity|].
    split; [|discriminate].
    rewrite calls_app, calls_deleted by reflexivity. reflexivity.
Qed.

(** C7.  The block that binds the session (lines 103-114), for any target
    datastore and any state of the session.  If the session is already bound
    to the target, the invocation issues no switch.  Otherwise the first call
    is the switch to the target; when it fails, nothing follows, the reply is
    the one the switch left and [sessions->ds] keeps its value; when it
    succeeds, [sessions->ds] becomes the target.  Whenever the switch did not
    fail, the next call is the refresh, so that no delete precedes it, and
    when the refresh fails nothing follows and the reply is the one the
    refresh left.  The handler runs this block with target 0, the startup
    datastore, on every request that is not for <url> and whose caller
    passed the permission check. *)
Theorem store_switcher_contract (E : env) :
  (forall (target : sr_datastore_t) (mods : list lys_module) (s : state),
      let s' := snd (erase_store E target mods s) in
      let sw := E (log s) (session_switch_ds target) in
      exists ext,
        log s' = log s ++ ext /\
        (ds s = target -> calls is_switch ext = false) /\
        (ds s <> target ->
         exists tail,
           ext = (session_switch_ds target, rc sw) :: tail /\
           calls is_switch tail = false /\
           (failed (rc sw) = true ->
            tail = [] /\ ereply s' = out sw /\ ds s' = ds s) /\
           (failed (rc sw) = false -> ds s' = target)) /\
        (ds s = target \/ failed (rc sw) = false ->
         exists pre tail,
           let rf := E (log s ++ pre) session_refresh in
           ext = pre ++ (session_refresh, rc rf) :: tail /\
           calls is_delete pre = false /\
           ds s' = target /\
           (failed (rc rf) = true -> tail = [] /\ ereply s' = out rf))) /\
  (forall (URL_CAPABILITY : bool) (ly_ctx : list lys_module) (rpc : request)
          (d0 : sr_datastore_t),
      failed (rc (E [] (check_exec_permission exec_xpath))) = false ->
      dsname rpc <> "url" ->
      op_deleteconfig URL_CAPABILITY E ly_ctx rpc d0 =
      snd (erase_store E SR_DS_STARTUP ly_ctx
             (mk_state d0 (out (E [] (check_exec_permission exec_xpath)))
                       resolved_log))).
Proof.
  split;
    [|intros cap ly_ctx rpc d0 Hp Hu;
      now apply op_datastore, eqb_url_false].
  intros target mods s s' sw.
  pose proof (erase_store_shape E target mods s) as Hflow. fold s' in Hflow.
  destruct (Z.eq_dec (ds s) target) as [Heq|Hneq].
  - (* already bound *)
    destruct (store_flow_refresh E target _ s s' Hflow (or_introl Heq))
      as (h & tail & Hb & Hl & Hd & Hns & Hrf).
    destruct Hb as [[_ Hh] | (Hne & _)]; [subst h|contradiction].
    exists ((session_refresh, rc (E (log s) session_refresh)) :: tail).
    split; [exact Hl|]. split; [intros _; exact Hns|].
    split; [intros Hne; contradiction|].
    intros _. exists [], tail. rewrite app_nil_r. cbn [app].
    split; [reflexivity|]. split; [reflexivity|]. split; [exact Hd|].
    exact Hrf.
  - (* a switch is needed *)
    destruct (failed (rc sw)) eqn:Hsw.
    + invert_store_flow Hflow;
        try (destruct Hb as [[Hd _] | (_ & Hok & _)];
             [contradiction | fold sw in Hok; rewrite Hok in Hsw; discriminate]).
      subst r. fold sw.
      exists [(session_switch_ds target, rc sw)]. cbn [log ds ereply].
      split; [reflexivity|]. split; [intros Hd'; contradiction|].
      split.
      * intros _. exists []. repeat split. discriminate.
      * intros [Hd'|Hd']; [contradiction|discriminate].
    + destruct (store_flow_refresh E target _ s s' Hflow (or_intror Hsw))
        as (h & tail & Hb & Hl & Hd & Hns & Hrf).
      destruct Hb as [[Heq _] | (_ & Hok & Hh)]; [contradiction|subst h].
      fold sw in Hok.
      exists ((session_switch_ds target, 0%Z) ::
              (session_refresh,
               rc (E (log s ++ [(session_switch_ds target, 0%Z)])
                     session_refresh)) :: tail).
      split; [rewrite Hl, <- app_assoc; reflexivity|].
      split; [intros Heq; contradiction|].
      split.
      * intros _. eexists. rewrite Hok. split; [reflexivity|].
        split; [|split; [discriminate|intros _; exact Hd]].
        cbn [calls existsb fst is_switch orb]. exact Hns.
      * intros _. exists [(session_switch_ds target, 0%Z)], tail.
        cbn [app]. split; [reflexivity|]. split; [reflexivity|].
        split; [exact Hd|]. exact Hrf.
Qed.

Lemma store_switcher_contract_witness :
  let s := mk_state SR_DS_RUNNING None resolved_log in
  let s' := snd (erase_store env_ok SR_DS_STARTUP sample_ctx s) in
  ds s <> SR_DS_STARTUP /\
  exists tail,
    log s' = log s ++ (session_switch_ds SR_DS_STARTUP, 0%Z) :: tail /\
    calls is_switch tail = false /\
    ds s' = SR_DS_STARTUP.
Proof.
  assert (Hne : ds (mk_state SR_DS_RUNNING None resolved_log) <> SR_DS_STARTUP)
    by discriminate.
  destruct (store_switcher_contract env_ok) as [Hblock _].
  destruct (Hblock SR_DS_STARTUP sample_ctx
                   (mk_state SR_DS_RUNNING None resolved_log))
    as (ext & Hl & _ & Hsw & _).
  destruct (Hsw Hne) as (tail & Hext & Hns & _ & Hd).
  split; [exact Hne|].
  exists tail. rewrite Hl, Hext.
  split; [reflexivity|]. split; [exact Hns|]. apply Hd. reflexivity.
Defined.

(** ** C8: exactly one reply *)

Lemma is_error_add_err (r : option nc_server_reply) (e : nc_server_error) :
  is_error r = true -> is_error (nc_server_reply_add_err r e) = true.
Proof.
  destruct r as [[| |[|e' errs]]|]; simpl; try discriminate. reflexivity.
Qed.

Lemma is_error_not_ok (r : option nc_server_reply) :
  is_error r = true -> r <> Some NC_RPL_OK.
Proof. intros H Heq. subst r. discriminate. Qed.

(** C8.  With collaborators that report every failure as an error reply,
    the reply the handler returns is never NULL and is of exactly one of two
    forms, whatever the branch: the ok acknowledgement, or an error reply
    that carries at least one error. *)
Theorem exactly_one_reply (URL_CAPABILITY : bool) (E : env)
        (ly_ctx : list lys_module) (rpc : request) (d0 : sr_datastore_t) :
  reports_errors E ->
  let s := op_deleteconfig URL_CAPABILITY E ly_ctx rpc d0 in
  (ereply s = Some NC_RPL_OK /\ is_error (ereply s) = false) \/
  (is_error (ereply s) = true /\ ereply s <> Some NC_RPL_OK).
Proof.
  intros Hrep s. subst s.
  assert (Herr : forall r, is_error r = true ->
                           (r = Some NC_RPL_OK /\ is_error r = false) \/
                           (is_error r = true /\ r <> Some NC_RPL_OK)).
  { intros r Hr. right. split; [exact Hr|now apply is_error_not_ok]. }
  destruct (failed (rc (E [] (check_exec_permission exec_xpath)))) eqn:Hp.
  { rewrite (op_denied URL_CAPABILITY E ly_ctx rpc d0 Hp).
    cbn [ereply]. apply Herr, Hrep, Hp. }
  destruct (String.eqb (dsname rpc) "url") eqn:Hu.
  - destruct URL_CAPABILITY eqn:Hcap.
    + destruct (value_str rpc) as [url|] eqn:Hv.
      * rewrite (op_url true E ly_ctx rpc d0 Hp Hu eq_refl url Hv).
        pose proof (delete_url_shape E url
                      (mk_state d0
                         (out (E [] (check_exec_permission exec_xpath)))
                         resolved_log)) as Hflow.
        invert_url_flow Hflow;
          cbn [ereply].
        -- apply Herr, is_error_add_err. subst r. apply Hrep, Hf.
        -- apply Herr. subst r. apply Hrep, Hf.
        -- left. split; reflexivity.
      * rewrite (op_url_missing true E ly_ctx rpc d0 Hp Hu eq_refl Hv).
        cbn [ereply]. apply Herr. reflexivity.
    + rewrite (op_url_unsupported false E ly_ctx rpc d0 Hp Hu eq_refl).
      cbn [ereply]. apply Herr. reflexivity.
  - rewrite (op_datastore URL_CAPABILITY E ly_ctx rpc d0 Hp Hu).
    pose proof (erase_store_shape E 0%Z ly_ctx
                  (mk_state d0 (out (E [] (check_exec_permission exec_xpath)))
                            resolved_log)) as Hflow.
    invert_store_flow Hflow;
      cbn [ereply];
      try (apply Herr; subst r; apply Hrep, Hf).
    left. split; reflexivity.
Qed.

Lemma exactly_one_reply_witness :
  let E := env_fail_at 4 (nc_server_reply_err sample_error) in
  let s := op_deleteconfig true E sample_ctx (mk_request "startup" None)
                           SR_DS_RUNNING in
  reports_errors E /\
  ((ereply s = Some NC_RPL_OK /\ is_error (ereply s) = false) \/
   (is_error (ereply s) = true /\ ereply s <> Some NC_RPL_OK)).
Proof.
  split; [apply env_fail_at_reports|].
  apply (exactly_one_reply true
           (env_fail_at 4 (nc_server_reply_err sample_error)) sample_ctx
           (mk_request "startup" None) SR_DS_RUNNING).
  apply env_fail_at_reports.
Defined.

(** ** C6: domains without configuration are skipped *)

(** The bit test of lines 122-123 in the words of the specification. *)
Lemma skipped_spec (iter : lys_node) :
  skipped iter = negb (is_data_kind (nodetype iter) && writable iter).
Proof.
  unfold skipped, writable. destruct (nodetype iter); reflexivity.
Qed.

Lemma qualifying_iff (md : lys_module) :
  qualifying md = true <-> has_config_node md.
Proof.
  unfold qualifying, has_config_node. rewrite existsb_exists.
  split; intros (iter & Hin & H); exists iter; (split; [exact Hin|]).
  - rewrite skipped_spec, negb_involutive in H.
    now apply andb_true_iff in H.
  - rewrite skipped_spec, negb_involutive. now apply andb_true_iff.
Qed.

Lemma substring_all (s : string) (n : nat) :
  String.length s <= n -> String.substring 0 n s = s.
Proof.
  revert n. induction s as [|c s IH]; intros n Hn.
  - destruct n; reflexivity.
  - destruct n; simpl in *; [lia|]. f_equal. apply IH. lia.
Qed.

Lemma length_append (s1 s2 : string) :
  String.length (s1 +:+ s2) = String.length s1 + String.length s2.
Proof. induction s1 as [|c s1 IH]; simpl; [reflexivity|now rewrite IH]. Qed.

(** A module name of at most 1020 characters fits the path buffer. *)
Lemma snprintf_path_fits (mod_name : string) :
  String.length mod_name <= 1020 ->
  snprintf_path mod_name = module_path mod_name.
Proof.
  intros H. unfold snprintf_path, module_path. apply substring_all.
  rewrite !length_append. cbn [String.length]. lia.
Qed.

Lemma requested_deletes_app (l1 l2 : list entry) :
  requested_deletes (l1 ++ l2) = requested_deletes l1 ++ requested_deletes l2.
Proof. unfold requested_deletes. apply flat_map_app. Qed.

Lemma requested_deletes_deleted (paths : list string) :
  requested_deletes (List.map deleted paths) = paths.
Proof.
  induction paths as [|p paths IH]; [reflexivity|].
  simpl. now rewrite IH.
Qed.

(** The binding adds at most a switch to the log. *)
Lemma bound_log_ext (E : env) (target : sr_datastore_t) (s : state)
      (h : list entry) :
  bound_log E target s h ->
  exists pre, h = log s ++ pre /\
              (pre = [] \/ pre = [(session_switch_ds target, 0%Z)]).
Proof.
  intros [[_ Hh] | (_ & _ & Hh)]; subst h.
  - exists []. rewrite app_nil_r. auto.
  - eexists. eauto.
Qed.

(** The delete requests of the datastore path: a prefix of the paths the
    schema calls for, and all of them once the commit is reached. *)
Lemma store_flow_deletes (E : env) (target : sr_datastore_t)
      (paths : list string) (s s' : state) :
  store_flow E target paths s s' ->
  exists ext,
    log s' = log s ++ ext /\
    (exists rest, paths = requested_deletes ext ++ rest) /\
    (calls is_commit ext = true -> requested_deletes ext = paths).
Proof.
  intros Hflow.
  assert (Hrd : forall pre l,
             pre = [] \/ pre = [(session_switch_ds target, 0%Z)] ->
             requested_deletes (pre ++ (session_refresh, 0%Z) :: l) =
             requested_deletes l).
  { intros pre l [Hpre|Hpre]; subst pre; reflexivity. }
  assert (Hcm : forall pre l,
             pre = [] \/ pre = [(session_switch_ds target, 0%Z)] ->
             calls is_commit (pre ++ (session_refresh, 0%Z) :: l) =
             calls is_commit l).
  { intros pre l [Hpre|Hpre]; subst pre; reflexivity. }
  invert_store_flow Hflow; cbn [log].
  - eexists. split; [reflexivity|]. split; [exists paths; reflexivity|].
    discriminate.
  - destruct (bound_log_ext E target s h Hb) as (pre & Hh & Hpre). subst h.
    eexists. split; [rewrite <- app_assoc; reflexivity|].
    destruct Hpre as [Hpre|Hpre]; subst pre;
      (split; [exists paths; reflexivity|discriminate]).
  - destruct (bound_log_ext E target s h Hb) as (pre & Hh & Hpre).
    subst h h'.
    exists (pre ++ (session_refresh, 0%Z) ::
            (List.map deleted done ++ [(delete_item p 0, rc r);
                                       (discard_changes, r')])).
    split; [now rewrite <- !app_assoc|].
    rewrite (Hrd _ _ Hpre), (Hcm _ _ Hpre).
    rewrite requested_deletes_app, requested_deletes_deleted.
    rewrite calls_app, calls_deleted by reflexivity.
    split; [exists rest; now rewrite <- app_assoc|discriminate].
  - destruct (bound_log_ext E target s h Hb) as (pre & Hh & Hpre).
    subst h h'.
    exists (pre ++ (session_refresh, 0%Z) ::
            (List.map deleted paths ++ [(commit, rc r);
                                        (discard_changes, r')])).
    split; [now rewrite <- !app_assoc|].
    rewrite (Hrd _ _ Hpre).
    rewrite requested_deletes_app, requested_deletes_deleted.
    cbn. rewrite app_nil_r.
    split; [exists []; now rewrite app_nil_r|reflexivity].
  - destruct (bound_log_ext E target s h Hb) as (pre & Hh & Hpre).
    subst h h'.
    exists (pre ++ (session_refresh, 0%Z) ::
            (List.map deleted paths ++ [(commit, 0%Z)])).
    split; [now rewrite <- !app_assoc|].
    rewrite (Hrd _ _ Hpre).
    rewrite requested_deletes_app, requested_deletes_deleted.
    cbn. rewrite app_nil_r.
    split; [exists []; now rewrite app_nil_r|reflexivity].
Qed.

(** The delete requests of an invocation, whatever the path taken. *)
Lemma op_deleteconfig_deletes (URL_CAPABILITY : bool) (E : env)
      (ly_ctx : list lys_module) (rpc : request) (d0 : sr_datastore_t) :
  let s := op_deleteconfig URL_CAPABILITY E ly_ctx rpc d0 in
  (exists rest, delete_paths ly_ctx = requested_deletes (log s) ++ rest) /\
  (calls is_commit (log s) = true ->
   requested_deletes (log s) = delete_paths ly_ctx).
Proof.
  intros s. subst s.
  assert (Hnone : forall l : list entry,
             requested_deletes l = [] -> calls is_commit l = false ->
             (exists rest, delete_paths ly_ctx = requested_deletes l ++ rest) /\
             (calls is_commit l = true ->
              requested_deletes l = delete_paths ly_ctx)).
  { intros l H1 H2. rewrite H1, H2. split; [eauto|discriminate]. }
  destruct (failed (rc (E [] (check_exec_permission exec_xpath)))) eqn:Hp.
  { rewrite (op_denied URL_CAPABILITY E ly_ctx rpc d0 Hp).
    apply Hnone; reflexivity. }
  destruct (String.eqb (dsname rpc) "url") eqn:Hu.
  - destruct URL_CAPABILITY eqn:Hcap.
    + destruct (value_str rpc) as [url|] eqn:Hv.
      * rewrite (op_url true E ly_ctx rpc d0 Hp Hu eq_refl url Hv).
        pose proof (delete_url_shape E url
                      (mk_state d0
                         (out (E [] (check_exec_permission exec_xpath)))
                         resolved_log)) as Hflow.
        invert_url_flow Hflow;
          cbn [log] in *; try subst h; apply Hnone; reflexivity.
      * rewrite (op_url_missing true E ly_ctx rpc d0 Hp Hu eq_refl Hv).
        apply Hnone; reflexivity.
    + rewrite (op_url_unsupported false E ly_ctx rpc d0 Hp Hu eq_refl).
      apply Hnone; reflexivity.
  - rewrite (op_datastore URL_CAPABILITY E ly_ctx rpc d0 Hp Hu).
    destruct (store_flow_deletes E 0%Z _ _ _
                (erase_store_shape E 0%Z ly_ctx
                   (mk_state d0
                      (out (E [] (check_exec_permission exec_xpath)))
                      resolved_log)))
      as (ext & Hl & Hpre & Hall).
    rewrite Hl. cbn [log].
    rewrite requested_deletes_app, calls_app.
    change (requested_deletes resolved_log) with (@nil string).
    change (calls is_commit resolved_log) with false.
    cbn [app orb]. split; [destruct Hpre as (rest & Hrest); eauto|exact Hall].
Qed.

Lemma failures_deleted (kind : call -> bool) (paths : list string) :
  failures kind (List.map deleted paths) = false.
Proof.
  unfold failures. induction paths as [|p paths IH]; [reflexivity|].
  cbn [List.map existsb]. rewrite IH. unfold deleted. cbn [fst snd].
  now rewrite andb_false_r.
Qed.

(** Once the session is bound and the refresh has succeeded, the block of
    lines 103-114 falls through to the module loop. *)
Lemma switch_and_refresh_ok (E : env) (target : sr_datastore_t) (s : state)
      (h : list entry) :
  bound_log E target s h ->
  rc (E h session_refresh) = 0%Z ->
  switch_and_refresh E target s =
  (Some tt,
   mk_state target (out (E h session_refresh))
            (h ++ [(session_refresh, 0%Z)])).
Proof.
  intros Hb Hrf. unfold switch_and_refresh. unfold_calls. unfold_monad.
  cbn [log ds ereply].
  destruct Hb as [[Hd Hh] | (Hd & Hok & Hh)]; subst h.
  - rewrite (proj2 (Z.eqb_eq _ _) Hd). cbn [negb log ds ereply].
    rewrite Hrf, Hd. reflexivity.
  - rewrite (proj2 (Z.eqb_neq _ _) Hd). cbn [negb log ds ereply].
    rewrite Hok. cbn [failed Z.eqb negb log ds ereply].
    rewrite Hrf. reflexivity.
Qed.

(** The delete requests of the datastore path once its refresh has
    succeeded: all the paths when no request fails, and otherwise the paths
    up to and including the one whose request fails. *)
Lemma store_flow_loop (E : env) (target : sr_datastore_t)
      (paths : list string) (s s' : state) :
  store_flow E target paths s s' ->
  exists ext,
    log s' = log s ++ ext /\
    (successes is_refresh ext = true ->
     (failures is_delete ext = false /\ requested_deletes ext = paths) \/
     (failures is_delete ext = true /\
      exists done p rest,
        paths = done ++ p :: rest /\ requested_deletes ext = done ++ [p])).
Proof.
  intros Hflow.
  assert (Hrd : forall pre l,
             pre = [] \/ pre = [(session_switch_ds target, 0%Z)] ->
             requested_deletes (pre ++ (session_refresh, 0%Z) :: l) =
             requested_deletes l).
  { intros pre l [Hpre|Hpre]; subst pre; reflexivity. }
  assert (Hfd : forall pre l,
             pre = [] \/ pre = [(session_switch_ds target, 0%Z)] ->
             failures is_delete (pre ++ (session_refresh, 0%Z) :: l) =
             failures is_delete l).
  { intros pre l [Hpre|Hpre]; subst pre; reflexivity. }
  invert_store_flow Hflow; cbn [log].
  - eexists. split; [reflexivity|]. discriminate.
  - destruct (bound_log_ext E target s h Hb) as (pre & Hh & Hpre). subst h.
    exists (pre ++ [(session_refresh, rc r)]).
    split; [now rewrite <- app_assoc|].
    intros Hsuc. exfalso. unfold successes in Hsuc.
    destruct Hpre as [Hpre|Hpre]; subst pre; cbn in Hsuc;
      rewrite Hf in Hsuc; discriminate.
  - destruct (bound_log_ext E target s h Hb) as (pre & Hh & Hpre).
    subst h h'.
    exists (pre ++ (session_refresh, 0%Z) ::
            (List.map deleted done ++ [(delete_item p 0, rc r);
                                       (discard_changes, r')])).
    split; [now rewrite <- !app_assoc|]. intros _. right.
    rewrite (Hfd _ _ Hpre), (Hrd _ _ Hpre).
    rewrite requested_deletes_app, requested_deletes_deleted.
    split; [|exists done, p, rest; split; [assumption|reflexivity]].
    unfold failures. rewrite existsb_app. cbn [existsb fst snd is_delete].
    rewrite Hf. cbn [andb orb]. apply orb_true_r.
  - destruct (bound_log_ext E target s h Hb) as (pre & Hh & Hpre).
    subst h h'.
    exists (pre ++ (session_refresh, 0%Z) ::
            (List.map deleted paths ++ [(commit, rc r);
                                        (discard_changes, r')])).
    split; [now rewrite <- !app_assoc|]. intros _. left.
    rewrite (Hfd _ _ Hpre), (Hrd _ _ Hpre).
    rewrite requested_deletes_app, requested_deletes_deleted.
    split; [|cbn; now rewrite app_nil_r].
    unfold failures. rewrite existsb_app.
    fold (failures is_delete (List.map deleted paths)).
    now rewrite failures_deleted.
  - destruct (bound_log_ext E target s h Hb) as (pre & Hh & Hpre).
    subst h h'.
    exists (pre ++ (session_refresh, 0%Z) ::
            (List.map deleted paths ++ [(commit, 0%Z)])).
    split; [now rewrite <- !app_assoc|]. intros _. left.
    rewrite (Hfd _ _ Hpre), (Hrd _ _ Hpre).
    rewrite requested_deletes_app, requested_deletes_deleted.
    split; [|cbn; now rewrite app_nil_r].
    unfold failures. rewrite existsb_app.
    fold (failures is_delete (List.map deleted paths)).
    now rewrite failures_deleted.
Qed.

(** The same for the whole handler. *)
Lemma op_deleteconfig_loop (URL_CAPABILITY : bool) (E : env)
      (ly_ctx : list lys_module) (rpc : request) (d0 : sr_datastore_t) :
  let s := op_deleteconfig URL_CAPABILITY E ly_ctx rpc d0 in
  successes is_refresh (log s) = true ->
  (failures is_delete (log s) = false /\
   requested_deletes (log s) = delete_paths ly_ctx) \/
  (failures is_delete (log s) = true /\
   exists done p rest,
     delete_paths ly_ctx = done ++ p :: rest /\
     requested_deletes (log s) = done ++ [p]).
Proof.
  intros s. subst s.
  destruct (failed (rc (E [] (check_exec_permission exec_xpath)))) eqn:Hp.
  { rewrite (op_denied URL_CAPABILITY E ly_ctx rpc d0 Hp). discriminate. }
  destruct (String.eqb (dsname rpc) "url") eqn:Hu.
  - destruct URL_CAPABILITY eqn:Hcap.
    + destruct (value_str rpc) as [url|] eqn:Hv.
      * rewrite (op_url true E ly_ctx rpc d0 Hp Hu eq_refl url Hv).
        pose proof (delete_url_shape E url
                      (mk_state d0
                         (out (E [] (check_exec_permission exec_xpath)))
                         resolved_log)) as Hflow.
        invert_url_flow Hflow; cbn [log] in *; try subst h; discriminate.
      * rewrite (op_url_missing true E ly_ctx rpc d0 Hp Hu eq_refl Hv).
        discriminate.
    + rewrite (op_url_unsupported false E ly_ctx rpc d0 Hp Hu eq_refl).
      discriminate.
  - rewrite (op_datastore URL_CAPABILITY E ly_ctx rpc d0 Hp Hu).
    destruct (store_flow_loop E 0%Z _ _ _
                (erase_store_shape E 0%Z ly_ctx
                   (mk_state d0
                      (out (E [] (check_exec_permission exec_xpath)))
                      resolved_log)))
      as (ext & Hl & Hloop).
    rewrite Hl. cbn [log].
    assert (Hsuc : successes is_refresh (resolved_log ++ ext) =
                   successes is_refresh ext).
    { unfold successes. now rewrite existsb_app. }
    assert (Hfl : failures is_delete (resolved_log ++ ext) =
                  failures is_delete ext).
    { unfold failures. now rewrite existsb_app. }
    rewrite Hsuc, Hfl, requested_deletes_app.
    change (requested_deletes resolved_log) with (@nil string).
    cbn [app]. exact Hloop.
Qed.

(** C6.  A domain none of whose top-level nodes is a writable node of kind
    container, list, leaf-list, leaf or any-content costs no call at all:
    the sibling loop leaves the state as it found it.  A domain with such a
    node costs exactly one delete request, for the path that [snprintf]
    builds from "/%s:*" and the module name (this is "/<name>:*" for a name
    of up to 1020 characters), followed by nothing but the [discard_changes]
    of a failed request.

    The module loop, from any state: when it falls through, what it added
    to the log is exactly one successful delete for each domain with such a
    node, in registry order, and nothing for the other domains; when it
    jumps to [finish], it added one successful delete for each such domain
    before the one whose delete failed, that failed delete, and the
    [discard_changes].

    The handler runs this loop on the whole registry as soon as the refresh
    has succeeded, returns the state of a loop that jumped to [finish] and
    otherwise goes on to the commit.  So in every invocation whose refresh
    succeeded the delete requests are the paths of all domains with such a
    node, one each, when no delete failed, and the paths up to and including
    the failing one when one failed; in every invocation they are a prefix
    of those paths, and all of them when the commit is reached. *)
Theorem domain_skip_optimisation (E : env) :
  (forall md s,
      ~ has_config_node md ->
      tree_for E (name md) (data md) s = (Some tt, s)) /\
  (forall md s,
      has_config_node md ->
      exists r tail,
        log (snd (tree_for E (name md) (data md) s)) =
        log s ++ (delete_item (snprintf_path (name md)) 0, r) :: tail /\
        calls is_delete tail = false) /\
  (forall mods s,
      match module_iter E mods s with
      | (Some _, s') =>
          log s' = log s ++ List.map deleted (delete_paths mods)
      | (None, s') =>
          exists done p rest,
            delete_paths mods = done ++ p :: rest /\
            let h := log s ++ List.map deleted done in
            let r := rc (E h (delete_item p 0)) in
            failed r = true /\
            log s' = h ++ [(delete_item p 0, r);
                           (discard_changes,
                            rc (E (h ++ [(delete_item p 0, r)])
                                  discard_changes))]
      end) /\
  (forall URL_CAPABILITY ly_ctx rpc d0 h,
      failed (rc (E [] (check_exec_permission exec_xpath))) = false ->
      dsname rpc <> "url" ->
      bound_log E SR_DS_STARTUP
                (mk_state d0 (out (E [] (check_exec_permission exec_xpath)))
                          resolved_log) h ->
      rc (E h session_refresh) = 0%Z ->
      op_deleteconfig URL_CAPABILITY E ly_ctx rpc d0 =
      match module_iter E ly_ctx
                        (mk_state SR_DS_STARTUP (out (E h session_refresh))
                                  (h ++ [(session_refresh, 0%Z)])) with
      | (Some _, s') => snd (commit_result E s')
      | (None, s') => s'
      end) /\
  (forall URL_CAPABILITY ly_ctx rpc d0,
      let s := op_deleteconfig URL_CAPABILITY E ly_ctx rpc d0 in
      successes is_refresh (log s) = true ->
      (failures is_delete (log s) = false /\
       requested_deletes (log s) = delete_paths ly_ctx) \/
      (failures is_delete (log s) = true /\
       exists done p rest,
         delete_paths ly_ctx = done ++ p :: rest /\
         requested_deletes (log s) = done ++ [p])) /\
  (forall URL_CAPABILITY ly_ctx rpc d0,
      let s := op_deleteconfig URL_CAPABILITY E ly_ctx rpc d0 in
      (exists rest, delete_paths ly_ctx = requested_deletes (log s) ++ rest) /\
      (calls is_commit (log s) = true ->
       requested_deletes (log s) = delete_paths ly_ctx)) /\
  (forall md, qualifying md = true <-> has_config_node md) /\
  (forall md, String.length (name md) <= 1020 ->
              snprintf_path (name md) = module_path (name md)).
Proof.
  split; [|split; [|split; [|split; [|split; [|split; [|split]]]]]].
  - intros md s Hno. rewrite tree_for_eq. fold (qualifying md).
    destruct (qualifying md) eqn:Hq; [|reflexivity].
    apply qualifying_iff in Hq. contradiction.
  - intros md s Hyes. apply qualifying_iff in Hyes.
    rewrite tree_for_eq. fold (qualifying md). rewrite Hyes.
    unfold delete_domain. unfold_calls. unfold_monad. cbn [log ds ereply].
    set (p := snprintf_path (name md)).
    destruct (failed (rc (E (log s) (delete_item p 0)))); cbn [snd log].
    + eexists. eexists. rewrite <- app_assoc. cbn [app].
      split; reflexivity.
    + eexists. exists []. split; reflexivity.
  - intros mods s. pose proof (module_iter_shape E mods s) as Hshape.
    destruct (module_iter E mods s) as [[[]|] s'].
    + apply Hshape.
    + destruct Hshape as (_ & done & p & rest & Hp & Hf & _ & Hl).
      exists done, p, rest. cbv zeta in *. auto.
  - intros cap ly_ctx rpc d0 h Hp Hu Hb Hrf. apply eqb_url_false in Hu.
    rewrite (op_datastore cap E ly_ctx rpc d0 Hp Hu).
    unfold erase_store. unfold bind at 1.
    rewrite (switch_and_refresh_ok E 0%Z _ h Hb Hrf).
    unfold bind at 1.
    now destruct (module_iter E ly_ctx _) as [[[]|] s'].
  - intros cap ly_ctx rpc d0. apply op_deleteconfig_loop.
  - intros cap ly_ctx rpc d0. apply op_deleteconfig_deletes.
  - apply qualifying_iff.
  - intros md. apply snprintf_path_fits.
Qed.

Lemma domain_skip_optimisation_witness :
  let state_only :=
    mk_module "ietf-netconf-monitoring"
              [mk_node LYS_RPC 0%Z; mk_node LYS_LEAF LYS_CONFIG_R] in
  let config := mk_module "ietf-system"
                          [mk_node LYS_GROUPING 0%Z;
                           mk_node LYS_LIST LYS_CONFIG_W] in
  let s := mk_state SR_DS_STARTUP None resolved_log in
  let run := op_deleteconfig true env_ok sample_ctx (mk_request "startup" None)
                             SR_DS_RUNNING in
  ~ has_config_node state_only /\
  has_config_node config /\
  tree_for env_ok (name state_only) (data state_only) s = (Some tt, s) /\
  (exists r tail,
      log (snd (tree_for env_ok (name config) (data config) s)) =
      log s ++ (delete_item "/ietf-system:*" 0, r) :: tail /\
      calls is_delete tail = false) /\
  successes is_refresh (log run) = true /\
  requested_deletes (log run) = ["/ietf-interfaces:*"; "/ietf-system:*"].
Proof.
  cbv zeta.
  assert (H1 : ~ has_config_node
                 (mk_module "ietf-netconf-monitoring"
                            [mk_node LYS_RPC 0%Z;
                             mk_node LYS_LEAF LYS_CONFIG_R])).
  { intros (iter & Hin & Hk & Hw). simpl in Hin.
    destruct Hin as [<-|[<-|[]]]; discriminate. }
  assert (H2 : has_config_node
                 (mk_module "ietf-system"
                            [mk_node LYS_GROUPING 0%Z;
                             mk_node LYS_LIST LYS_CONFIG_W])).
  { exists (mk_node LYS_LIST LYS_CONFIG_W). simpl. auto. }
  destruct (domain_skip_optimisation env_ok)
    as (Hskip & Hone & _ & _ & Hloop & _).
  split; [exact H1|]. split; [exact H2|].
  split; [exact (Hskip _ _ H1)|]. split; [exact (Hone _ _ H2)|].
  split; [reflexivity|].
  destruct (Hloop true sample_ctx (mk_request "startup" None) SR_DS_RUNNING
                  eq_refl) as [(_ & Hall) | (Hfail & _)].
  - exact Hall.
  - vm_compute in Hfail. discriminate.
Defined.

(** ** C1: atomicity of the bulk erase *)

Lemma apply_delete_None (d : sr_datastore_t) (path : string)
      (c : gmap (Z * string) string) (k : Z * string) :
  c !! k = None -> apply_delete d path c !! k = None.
Proof. intros H. unfold apply_delete. apply map_lookup_filter_None. now left. Qed.

Lemma apply_delete_hit (d : sr_datastore_t) (m : string)
      (c : gmap (Z * string) string) :
  apply_delete d (module_path m) c !! (d, m) = None.
Proof.
  unfold apply_delete. apply map_lookup_filter_None. right.
  intros x _ Hkeep. apply Hkeep. simpl. auto.
Qed.

Lemma apply_pending_None (d : sr_datastore_t) (paths : list string)
      (c : gmap (Z * string) string) (k : Z * string) :
  c !! k = None -> apply_pending d paths c !! k = None.
Proof.
  revert c. induction paths as [|p paths IH]; intros c H; [exact H|].
  unfold apply_pending in *. cbn [foldl]. apply IH.
  now apply apply_delete_None.
Qed.

(** Once the delete of a module is among the changes a commit applies, the
    module has no data in the bound datastore afterwards. *)
Lemma apply_pending_hit (d : sr_datastore_t) (paths : list string)
      (c : gmap (Z * string) string) (m : string) :
  In (module_path m) paths -> apply_pending d paths c !! (d, m) = None.
Proof.
  revert c. induction paths as [|p paths IH]; intros c Hin; [destruct Hin|].
  unfold apply_pending in *. cbn [foldl].
  destruct Hin as [Hp|Hin].
  - subst p. apply (apply_pending_None d paths). apply apply_delete_hit.
  - now apply IH.
Qed.

Lemma replay_cons (eng : engine) (e : entry) (l : list entry) :
  replay eng (e :: l) = replay (engine_step eng e) l.
Proof. reflexivity. Qed.

Lemma replay_deleted (paths : list string) (eng : engine) :
  replay eng (List.map deleted paths) =
  mk_engine (bound eng) (committed eng) (pending eng ++ paths).
Proof.
  revert eng. induction paths as [|p paths IH]; intros eng.
  - cbn. rewrite app_nil_r. now destruct eng.
  - cbn [List.map]. rewrite replay_cons, IH. cbn.
    now rewrite <- app_assoc.
Qed.

Lemma bound_log_pre (E : env) (target : sr_datastore_t) (s : state)
      (h : list entry) :
  bound_log E target s h ->
  exists pre, h = log s ++ pre /\
              ((ds s = target /\ pre = []) \/
               pre = [(session_switch_ds target, 0%Z)]).
Proof.
  intros [[Hd Hh] | (_ & _ & Hh)]; subst h.
  - exists []. rewrite app_nil_r. auto.
  - eexists. eauto.
Qed.

(** After the binding and the refresh the engine is bound to the target and
    holds what it held. *)
Lemma replay_bind (target d : sr_datastore_t) (pre l : list entry)
      (eng : engine) :
  (d = target /\ pre = []) \/ pre = [(session_switch_ds target, 0%Z)] ->
  bound eng = d ->
  replay eng (pre ++ (session_refresh, 0%Z) :: l) =
  replay (mk_engine target (committed eng) (pending eng)) l.
Proof.
  intros [[Hd Hpre] | Hpre] Hb; subst pre; cbn [app].
  - rewrite replay_cons. destruct eng as [b c p]. cbn in *. now subst.
  - now rewrite !replay_cons.
Qed.

Lemma existsb_bind (f : entry -> bool) (target d : sr_datastore_t)
      (pre l : list entry) :
  (d = target /\ pre = []) \/ pre = [(session_switch_ds target, 0%Z)] ->
  f (session_switch_ds target, 0%Z) = false ->
  f (session_refresh, 0%Z) = false ->
  existsb f (pre ++ (session_refresh, 0%Z) :: l) = existsb f l.
Proof.
  intros [[_ Hpre] | Hpre] Hsw Hrf; subst pre; cbn [app existsb];
    now rewrite ?Hsw, Hrf.
Qed.

Lemma existsb_deleted (f : entry -> bool) (paths : list string) :
  (forall p, f (deleted p) = false) ->
  existsb f (List.map deleted paths) = false.
Proof.
  intros H. induction paths as [|p paths IH]; [reflexivity|].
  cbn [List.map existsb]. now rewrite H, IH.
Qed.

Lemma engine_step_committed (eng : engine) (e : entry) :
  is_commit (fst e) && negb (failed (snd e)) = false ->
  committed (engine_step eng e) = committed eng.
Proof.
  unfold engine_step. destruct e as [c r]. cbn [fst snd].
  destruct (failed r); [reflexivity|].
  destruct c; cbn; try reflexivity. discriminate.
Qed.

(** Only a commit that succeeds changes the stored configuration. *)
Lemma replay_committed_unchanged (l : list entry) (eng : engine) :
  successes is_commit l = false ->
  committed (replay eng l) = committed eng.
Proof.
  revert eng. induction l as [|e l IH]; intros eng H; [reflexivity|].
  unfold successes in H. cbn [existsb] in H.
  apply orb_false_iff in H. destruct H as [He Hl].
  rewrite replay_cons, IH by exact Hl. now apply engine_step_committed.
Qed.

(** The datastore path against the engine.  Either the commit succeeded, the
    reply is ok, the commit is the last call and it applied the deletes of
    all paths; or no commit succeeded and the stored configuration is what
    it was.  A failed delete or a failed commit is followed by
    [discard_changes] and nothing else, and no commit follows a failed
    delete. *)
Lemma store_flow_engine (E : env) (target : sr_datastore_t)
      (paths : list string) (s s' : state) :
  store_flow E target paths s s' ->
  exists ext,
    log s' = log s ++ ext /\
    forall eng, bound eng = ds s ->
      ((successes is_commit ext = true /\
        ereply s' = nc_server_reply_ok /\
        ds s' = target /\
        (exists h, ext = h ++ [(commit, 0%Z)]) /\
        committed (replay eng ext) =
          apply_pending target (pending eng ++ paths) (committed eng))
       \/
       (successes is_commit ext = false /\
        committed (replay eng ext) = committed eng)) /\
      (failures is_delete ext = true ->
       calls is_commit ext = false /\
       exists h r, ext = h ++ [(discard_changes, r)] /\
                   (failed r = false -> pending (replay eng ext) = [])) /\
      (failures is_commit ext = true ->
       exists h r, ext = h ++ [(discard_changes, r)] /\
                   (failed r = false -> pending (replay eng ext) = [])).
Proof.
  intros Hflow.
  invert_store_flow Hflow; cbn [log ds ereply].
  - (* the switch failed *)
    exists [(session_switch_ds target, rc r)].
    split; [reflexivity|]. intros eng Hbound.
    unfold successes, failures, calls. cbn [existsb fst snd is_commit is_delete andb orb].
    split; [right; split; [reflexivity|]|split; discriminate].
    rewrite replay_cons. unfold engine_step. cbn [fst snd]. now rewrite Hf.
  - (* the refresh failed *)
    destruct (bound_log_pre E target s h Hb) as (pre & Hh & Hpre). subst h.
    exists (pre ++ [(session_refresh, rc r)]).
    split; [now rewrite <- app_assoc|]. intros eng Hbound.
    assert (Hns : successes is_commit (pre ++ [(session_refresh, rc r)]) =
                  false).
    { destruct Hpre as [[_ Hpre]|Hpre]; subst pre; reflexivity. }
    split; [right; split; [exact Hns|]|split].
    + now apply replay_committed_unchanged.
    + unfold failures.
      destruct Hpre as [[_ Hpre]|Hpre]; subst pre; cbn; discriminate.
    + unfold failures.
      destruct Hpre as [[_ Hpre]|Hpre]; subst pre; cbn; discriminate.
  - (* a delete failed *)
    destruct (bound_log_pre E target s h Hb) as (pre & Hh & Hpre).
    subst h h'.
    exists (pre ++ (session_refresh, 0%Z) ::
            (List.map deleted done ++ [(delete_item p 0, rc r);
                                       (discard_changes, r')])).
    split; [now rewrite <- !app_assoc|]. intros eng Hbound.
    assert (Hrep : replay eng
                     (pre ++ (session_refresh, 0%Z) ::
                      (List.map deleted done ++
                       [(delete_item p 0, rc r); (discard_changes, r')])) =
                   if failed r'
                   then mk_engine target (committed eng) (pending eng ++ done)
                   else mk_engine target (committed eng) []).
    { rewrite (replay_bind target (ds s) pre _ eng Hpre Hbound).
      rewrite replay_app, replay_deleted. cbn [bound committed pending].
      rewrite !replay_cons. unfold engine_step at 2. cbn [fst snd].
      rewrite Hf. unfold engine_step. cbn [fst snd].
      now destruct (failed r'). }
    assert (Hnc : calls is_commit
                    (pre ++ (session_refresh, 0%Z) ::
                     (List.map deleted done ++
                      [(delete_item p 0, rc r); (discard_changes, r')])) =
                  false).
    { unfold calls. rewrite (existsb_bind _ target (ds s) pre _ Hpre)
        by reflexivity.
      rewrite existsb_app, existsb_deleted by reflexivity. reflexivity. }
    split; [right; split|split].
    + unfold successes.
      rewrite (existsb_bind _ target (ds s) pre _ Hpre) by reflexivity.
      rewrite existsb_app, existsb_deleted by reflexivity. reflexivity.
    + rewrite Hrep. now destruct (failed r').
    + intros _. split; [exact Hnc|].
      exists (pre ++ (session_refresh, 0%Z) ::
              (List.map deleted done ++ [(delete_item p 0, rc r)])), r'.
      split.
      * rewrite <- app_assoc. cbn [app]. now rewrite <- app_assoc.
      * intros Hr0. rewrite Hrep, Hr0. reflexivity.
    + unfold failures.
      rewrite (existsb_bind _ target (ds s) pre _ Hpre) by reflexivity.
      rewrite existsb_app, existsb_deleted by reflexivity. discriminate.
  - (* the commit failed *)
    destruct (bound_log_pre E target s h Hb) as (pre & Hh & Hpre).
    subst h h'.
    exists (pre ++ (session_refresh, 0%Z) ::
            (List.map deleted paths ++ [(commit, rc r);
                                        (discard_changes, r')])).
    split; [now rewrite <- !app_assoc|]. intros eng Hbound.
    assert (Hrep : replay eng
                     (pre ++ (session_refresh, 0%Z) ::
                      (List.map deleted paths ++
                       [(commit, rc r); (discard_changes, r')])) =
                   if failed r'
                   then mk_engine target (committed eng) (pending eng ++ paths)
                   else mk_engine target (committed eng) []).
    { rewrite (replay_bind target (ds s) pre _ eng Hpre Hbound).
      rewrite replay_app, replay_deleted. cbn [bound committed pending].
      rewrite !replay_cons. unfold engine_step at 2. cbn [fst snd].
      rewrite Hf. unfold engine_step. cbn [fst snd].
      now destruct (failed r'). }
    assert (Hend : exists h r0,
               pre ++ (session_refresh, 0%Z) ::
               (List.map deleted paths ++
                [(commit, rc r); (discard_changes, r')]) =
               h ++ [(discard_changes, r0)] /\
               (failed r0 = false ->
                pending (replay eng
                           (pre ++ (session_refresh, 0%Z) ::
                            (List.map deleted paths ++
                             [(commit, rc r); (discard_changes, r')]))) = [])).
    { exists (pre ++ (session_refresh, 0%Z) ::
              (List.map deleted paths ++ [(commit, rc r)])), r'.
      split.
      - rewrite <- app_assoc. cbn [app]. now rewrite <- app_assoc.
      - intros Hr0. rewrite Hrep, Hr0. reflexivity. }
    split; [right; split|split].
    + unfold successes.
      rewrite (existsb_bind _ target (ds s) pre _ Hpre) by reflexivity.
      rewrite existsb_app, existsb_deleted by reflexivity.
      cbn. now rewrite Hf.
    + rewrite Hrep. now destruct (failed r').
    + unfold failures.
      rewrite (existsb_bind _ target (ds s) pre _ Hpre) by reflexivity.
      rewrite existsb_app, existsb_deleted by reflexivity. discriminate.
    + intros _. exact Hend.
  - (* committed *)
    destruct (bound_log_pre E target s h Hb) as (pre & Hh & Hpre).
    subst h h'.
    exists (pre ++ (session_refresh, 0%Z) ::
            (List.map deleted paths ++ [(commit, 0%Z)])).
    split; [now rewrite <- !app_assoc|]. intros eng Hbound.
    split; [left|split].
    + split; [|split; [reflexivity|split; [reflexivity|split]]].
      * unfold successes.
        rewrite (existsb_bind _ target (ds s) pre _ Hpre) by reflexivity.
        rewrite existsb_app, existsb_deleted by reflexivity. reflexivity.
      * exists (pre ++ (session_refresh, 0%Z) :: List.map deleted paths).
        rewrite <- app_assoc. reflexivity.
      * rewrite (replay_bind target (ds s) pre _ eng Hpre Hbound).
        rewrite replay_app, replay_deleted. reflexivity.
    + unfold failures.
      rewrite (existsb_bind _ target (ds s) pre _ Hpre) by reflexivity.
      rewrite existsb_app, existsb_deleted by reflexivity. discriminate.
    + unfold failures.
      rewrite (existsb_bind _ target (ds s) pre _ Hpre) by reflexivity.
      rewrite existsb_app, existsb_deleted by reflexivity. discriminate.
Qed.

(** The paths that do not reach the datastore leave no trace in it. *)
Lemma quiet_log_atomic (l : list entry) (eng : engine)
      (P : Prop) :
  successes is_commit l = false ->
  failures is_delete l = false ->
  failures is_commit l = false ->
  (P \/ (successes is_commit l = false /\
         committed (replay eng l) = committed eng)) /\
  (failures is_delete l = true ->
   calls is_commit l = false /\
   exists h r, l = h ++ [(discard_changes, r)] /\
               (failed r = false -> pending (replay eng l) = [])) /\
  (failures is_commit l = true ->
   exists h r, l = h ++ [(discard_changes, r)] /\
               (failed r = false -> pending (replay eng l) = [])).
Proof.
  intros Hs Hd Hc. rewrite Hd, Hc.
  split; [right; split; [exact Hs|]|split; discriminate].
  now apply replay_committed_unchanged.
Qed.

(** C1.  The bulk erase is all or nothing, for any behaviour of the
    collaborators.  The engine enters bound to the session's datastore, and
    module names fit the path buffer.  Then one of two things holds.  Either
    the commit succeeded: the reply is ok, the commit is the last call, and
    every module with a writable top-level data node has no data left in the
    startup datastore.  Or no commit succeeded, and the stored configuration
    of every datastore is what it was before the call.  Moreover a failed
    delete and a failed commit are each followed by [discard_changes] as the
    last call of the invocation, which empties the uncommitted changes when
    it succeeds, and no commit is attempted in an invocation in which a
    delete failed. *)
Theorem bulk_erase_atomic (URL_CAPABILITY : bool) (E : env)
        (ly_ctx : list lys_module) (rpc : request) (d0 : sr_datastore_t)
        (eng : engine) :
  bound eng = d0 ->
  Forall (fun md => String.length (name md) <= 1020) ly_ctx ->
  let s := op_deleteconfig URL_CAPABILITY E ly_ctx rpc d0 in
  let eng' := replay eng (log s) in
  ((successes is_commit (log s) = true /\
    ereply s = nc_server_reply_ok /\
    (exists h, log s = h ++ [(commit, 0%Z)]) /\
    forall md, In md ly_ctx -> has_config_node md ->
               committed eng' !! (SR_DS_STARTUP, name md) = None)
   \/
   (successes is_commit (log s) = false /\
    committed eng' = committed eng)) /\
  (failures is_delete (log s) = true ->
   calls is_commit (log s) = false /\
   exists h r, log s = h ++ [(discard_changes, r)] /\
               (failed r = false -> pending eng' = [])) /\
  (failures is_commit (log s) = true ->
   exists h r, log s = h ++ [(discard_changes, r)] /\
               (failed r = false -> pending eng' = [])).
Proof.
  intros Hbound Hfit s eng'. subst s eng'.
  destruct (failed (rc (E [] (check_exec_permission exec_xpath)))) eqn:Hp.
  { rewrite (op_denied URL_CAPABILITY E ly_ctx rpc d0 Hp). cbn [log].
    apply quiet_log_atomic; reflexivity. }
  destruct (String.eqb (dsname rpc) "url") eqn:Hu.
  - destruct URL_CAPABILITY eqn:Hcap.
    + destruct (value_str rpc) as [url|] eqn:Hv.
      * rewrite (op_url true E ly_ctx rpc d0 Hp Hu eq_refl url Hv).
        pose proof (delete_url_shape E url
                      (mk_state d0
                         (out (E [] (check_exec_permission exec_xpath)))
                         resolved_log)) as Hflow.
        invert_url_flow Hflow;
          cbn [log] in *; try subst h; apply quiet_log_atomic; reflexivity.
      * rewrite (op_url_missing true E ly_ctx rpc d0 Hp Hu eq_refl Hv).
        cbn [log]. apply quiet_log_atomic; reflexivity.
    + rewrite (op_url_unsupported false E ly_ctx rpc d0 Hp Hu eq_refl).
      cbn [log]. apply quiet_log_atomic; reflexivity.
  - rewrite (op_datastore URL_CAPABILITY E ly_ctx rpc d0 Hp Hu).
    destruct (store_flow_engine E 0%Z _ _ _
                (erase_store_shape E 0%Z ly_ctx
                   (mk_state d0
                      (out (E [] (check_exec_permission exec_xpath)))
                      resolved_log)))
      as (ext & Hl & Heng).
    destruct (Heng eng Hbound) as (Hdich & Hdel & Hcom). clear Heng.
    rewrite Hl. cbn [log].
    assert (Hrep : replay eng (resolved_log ++ ext) = replay eng ext).
    { rewrite replay_app. reflexivity. }
    assert (Hsuc : successes is_commit (resolved_log ++ ext) =
                   successes is_commit ext).
    { unfold successes. now rewrite existsb_app. }
    assert (Hfd : failures is_delete (resolved_log ++ ext) =
                  failures is_delete ext).
    { unfold failures. now rewrite existsb_app. }
    assert (Hfc : failures is_commit (resolved_log ++ ext) =
                  failures is_commit ext).
    { unfold failures. now rewrite existsb_app. }
    assert (Hcc : calls is_commit (resolved_log ++ ext) = calls is_commit ext).
    { now rewrite calls_app. }
    assert (Hend : forall x,
               (exists h, ext = h ++ [x]) ->
               exists h, resolved_log ++ ext = h ++ [x]).
    { intros x (h & Hh). exists (resolved_log ++ h).
      now rewrite Hh, app_assoc. }
    rewrite Hrep, Hsuc, Hfd, Hfc, Hcc.
    split; [|split].
    + destruct Hdich as [(H1 & H2 & _ & H3 & H4) | H]; [left|right; exact H].
      split; [exact H1|]. split; [exact H2|]. split; [now apply Hend|].
      intros md Hin Hcfg. rewrite H4.
      apply apply_pending_hit, in_or_app. right.
      unfold delete_paths. apply in_map_iff. exists md.
      split.
      * apply snprintf_path_fits.
        now apply (proj1 (List.Forall_forall _ _) Hfit).
      * apply List.filter_In. split; [exact Hin|now apply qualifying_iff].
    + intros Hd. destruct (Hdel Hd) as (Hnc & h & r & Hh & Hpend).
      split; [exact Hnc|].
      destruct (Hend _ (ex_intro _ h Hh)) as (h2 & Hh2). eauto.
    + intros Hc. destruct (Hcom Hc) as (h & r & Hh & Hpend).
      destruct (Hend _ (ex_intro _ h Hh)) as (h2 & Hh2). eauto.
Qed.

Lemma sample_ctx_fits :
  Forall (fun md => String.length (name md) <= 1020) sample_ctx.
Proof. repeat constructor; cbn; lia. Qed.

Lemma bulk_erase_atomic_witness :
  let E := env_fail_at 5 (nc_server_reply_err sample_error) in
  let s := op_deleteconfig true E sample_ctx (mk_request "startup" None)
                           SR_DS_RUNNING in
  bound sample_engine = SR_DS_RUNNING /\
  Forall (fun md => String.length (name md) <= 1020) sample_ctx /\
  failures is_delete (log s) = true /\
  committed (replay sample_engine (log s)) = committed sample_engine /\
  calls is_commit (log s) = false /\
  exists h r, log s = h ++ [(discard_changes, r)].
Proof.
  pose proof (bulk_erase_atomic true
                (env_fail_at 5 (nc_server_reply_err sample_error)) sample_ctx
                (mk_request "startup" None) SR_DS_RUNNING sample_engine
                eq_refl sample_ctx_fits) as H.
  cbv zeta in H. destruct H as (Hdich & Hdel & _).
  split; [reflexivity|]. split; [exact sample_ctx_fits|].
  split; [reflexivity|].
  destruct (Hdel eq_refl) as (Hnc & h & r & Hh & _).
  split.
  - destruct Hdich as [(Hsuc & _) | (_ & Hsame)]; [discriminate Hsuc|].
    exact Hsame.
  - split; [exact Hnc|]. exists h, r. exact Hh.
Defined.

(** * Further properties of the handler *)

(** ** The shape of every invocation *)

Lemma all_succeeded_app (l1 l2 : list entry) :
  all_succeeded (l1 ++ l2) = all_succeeded l1 && all_succeeded l2.
Proof. unfold all_succeeded. apply forallb_app. Qed.

Lemma all_succeeded_deleted (paths : list string) :
  all_succeeded (List.map deleted paths) = true.
Proof.
  induction paths as [|p paths IH]; [reflexivity|].
  cbn [List.map]. unfold all_succeeded in *. cbn [forallb]. now rewrite IH.
Qed.

Lemma all_succeeded_bound (target : sr_datastore_t) (d : sr_datastore_t)
      (pre : list entry) :
  (d = target /\ pre = []) \/ pre = [(session_switch_ds target, 0%Z)] ->
  all_succeeded pre = true.
Proof. intros [[_ H]|H]; subst pre; reflexivity. Qed.

(** The datastore path stops at the first call that fails: the calls before
    it all succeeded, the failing call is followed by [discard_changes] when
    it is a delete or the commit and by nothing otherwise, and the reply is
    the one the failing call left. *)
Lemma store_flow_outcome (E : env) (target : sr_datastore_t)
      (paths : list string) (s s' : state) :
  store_flow E target paths s s' ->
  exists h H tail,
    H = log s ++ h /\
    log s' = H ++ tail /\
    all_succeeded h = true /\
    ((tail = [] /\ ereply s' = nc_server_reply_ok /\
      exists h', h = h' ++ [(commit, 0%Z)])
     \/
     (exists c r,
         r = rc (E H c) /\ failed r = true /\
         is_store_call c = true /\ is_discard c = false /\
         ereply s' = out (E H c) /\
         tail = (c, r) ::
                (if rolls_back c
                 then [(discard_changes,
                        rc (E (H ++ [(c, r)]) discard_changes))]
                 else []))).
Proof.
  intros Hflow. invert_store_flow Hflow; cbn [log ds ereply].
  - exists [], (log s), [(session_switch_ds target, rc r)].
    rewrite app_nil_r. split; [reflexivity|]. split; [reflexivity|].
    split; [reflexivity|]. right.
    exists (session_switch_ds target), (rc r). subst r. repeat split. exact Hf.
  - destruct (bound_log_pre E target s h Hb) as (pre & Hh & Hpre).
    exists pre, h, [(session_refresh, rc r)].
    split; [exact Hh|]. split; [reflexivity|].
    split; [exact (all_succeeded_bound target (ds s) pre Hpre)|]. right.
    exists session_refresh, (rc r). subst r. repeat split. exact Hf.
  - destruct (bound_log_pre E target s h Hb) as (pre & Hh & Hpre).
    exists (pre ++ (session_refresh, 0%Z) :: List.map deleted done), h',
      [(delete_item p 0, rc r); (discard_changes, r')].
    split; [subst h h'; now rewrite <- app_assoc|]. split; [reflexivity|].
    split.
    { rewrite all_succeeded_app, (all_succeeded_bound target (ds s) pre Hpre).
      change (all_succeeded ((session_refresh, 0%Z) :: List.map deleted done))
        with (all_succeeded (List.map deleted done)).
      now rewrite all_succeeded_deleted. }
    right. exists (delete_item p 0), (rc r). subst r r'. repeat split.
    exact Hf.
  - destruct (bound_log_pre E target s h Hb) as (pre & Hh & Hpre).
    exists (pre ++ (session_refresh, 0%Z) :: List.map deleted paths), h',
      [(commit, rc r); (discard_changes, r')].
    split; [subst h h'; now rewrite <- app_assoc|]. split; [reflexivity|].
    split.
    { rewrite all_succeeded_app, (all_succeeded_bound target (ds s) pre Hpre).
      change (all_succeeded ((session_refresh, 0%Z) :: List.map deleted paths))
        with (all_succeeded (List.map deleted paths)).
      now rewrite all_succeeded_deleted. }
    right. exists commit, (rc r). subst r r'. repeat split. exact Hf.
  - destruct (bound_log_pre E target s h Hb) as (pre & Hh & Hpre).
    exists ((pre ++ (session_refresh, 0%Z) :: List.map deleted paths)
              ++ [(commit, 0%Z)]),
      (h' ++ [(commit, 0%Z)]), [].
    split; [subst h h'; now rewrite <- !app_assoc|].
    split; [now rewrite app_nil_r|].
    split.
    { rewrite !all_succeeded_app,
        (all_succeeded_bound target (ds s) pre Hpre).
      change (all_succeeded ((session_refresh, 0%Z) :: List.map deleted paths))
        with (all_succeeded (List.map deleted paths)).
      now rewrite all_succeeded_deleted. }
    left. split; [reflexivity|]. split; [reflexivity|]. eauto.
Qed.

(** The URL path stops at the first call that fails in the same way; it
    never discards. *)
Lemma url_flow_outcome (E : env) (url : string) (s s' : state) :
  url_flow E url s s' ->
  exists h H tail,
    H = log s ++ h /\
    log s' = H ++ tail /\
    all_succeeded h = true /\
    ((tail = [] /\ ereply s' = nc_server_reply_ok /\
      exists h', h = h' ++ [(url_init url, 0%Z)])
     \/
     (exists c r,
         r = rc (E H c) /\ failed r = true /\
         is_store_call c = false /\
         ereply s' = failure_reply E H c /\
         tail = [(c, r)])).
Proof.
  intros Hflow. invert_url_flow Hflow; cbn [log ds ereply].
  - exists [], (log s), [(url_import url url_options, rc r)].
    rewrite app_nil_r. split; [reflexivity|]. split; [reflexivity|].
    split; [reflexivity|]. right.
    exists (url_import url url_options), (rc r). subst r. repeat split.
    exact Hf.
  - exists [(url_import url url_options, 0%Z); (free_withsiblings, 0%Z)], h,
      [(url_init url, rc r)].
    split; [exact Hh|]. split; [reflexivity|]. split; [reflexivity|]. right.
    exists (url_init url), (rc r). subst r. repeat split. exact Hf.
  - exists [(url_import url url_options, 0%Z); (free_withsiblings, 0%Z);
            (url_init url, 0%Z)],
      (h ++ [(url_init url, 0%Z)]), [].
    split; [subst h; now rewrite <- app_assoc|].
    split; [now rewrite app_nil_r|]. split; [reflexivity|]. left.
    split; [reflexivity|]. split; [reflexivity|].
    exists [(url_import url url_options, 0%Z); (free_withsiblings, 0%Z)].
    reflexivity.
Qed.

(** The ways through the handler. *)
Lemma op_cases (URL_CAPABILITY : bool) (E : env) (ly_ctx : list lys_module)
      (rpc : request) (d0 : sr_datastore_t) :
  let r0 := E [] (check_exec_permission exec_xpath) in
  let s0 := mk_state d0 (out r0) resolved_log in
  let s := op_deleteconfig URL_CAPABILITY E ly_ctx rpc d0 in
  (failed (rc r0) = true /\
   s = mk_state d0 (out r0) [(check_exec_permission exec_xpath, rc r0)]) \/
  (failed (rc r0) = false /\
   ((dsname rpc = "url" /\
     exists msg, s = mk_state d0 (nc_server_reply_err (op_failed_error msg))
                              resolved_log) \/
    (dsname rpc = "url" /\ URL_CAPABILITY = true /\
     exists url, value_str rpc = Some url /\ url_flow E url s0 s) \/
    (dsname rpc <> "url" /\
     store_flow E SR_DS_STARTUP (delete_paths ly_ctx) s0 s))).
Proof.
  intros r0 s0 s. subst r0 s0 s.
  destruct (failed (rc (E [] (check_exec_permission exec_xpath)))) eqn:Hp.
  { left. split; [reflexivity|]. now apply op_denied. }
  right. split; [reflexivity|].
  destruct (String.eqb (dsname rpc) "url") eqn:Hu.
  - assert (Hd : dsname rpc = "url") by now apply String.eqb_eq.
    destruct URL_CAPABILITY eqn:Hcap.
    + destruct (value_str rpc) as [url|] eqn:Hv.
      * right. left. split; [exact Hd|]. split; [reflexivity|].
        exists url. split; [reflexivity|].
        rewrite (op_url true E ly_ctx rpc d0 Hp Hu eq_refl url Hv).
        apply delete_url_shape.
      * left. split; [exact Hd|]. eexists.
        now apply op_url_missing.
    + left. split; [exact Hd|]. eexists. now apply op_url_unsupported.
  - right. right. split; [now apply String.eqb_neq|].
    rewrite (op_datastore URL_CAPABILITY E ly_ctx rpc d0 Hp Hu).
    apply erase_store_shape.
Qed.

Lemma store_call_not_import (c : call) :
  is_store_call c = true -> is_url_import c = false.
Proof. destruct c; simpl; intros H; try reflexivity; discriminate. Qed.

Lemma other_call_no_roll_back (c : call) :
  is_store_call c = false -> rolls_back c = false /\ is_discard c = false.
Proof. destruct c; simpl; intros H; try discriminate; split; reflexivity. Qed.

(** Every invocation: a run of calls that succeeded, then nothing more, or
    the one call that failed, followed by [discard_changes] when it is a
    delete or the commit. *)
Lemma op_outcome (URL_CAPABILITY : bool) (E : env) (ly_ctx : list lys_module)
      (rpc : request) (d0 : sr_datastore_t) :
  let s := op_deleteconfig URL_CAPABILITY E ly_ctx rpc d0 in
  exists h tail,
    log s = h ++ tail /\
    all_succeeded h = true /\
    ((tail = [] /\ ereply s = nc_server_reply_ok /\
      ((exists h', h = h' ++ [(commit, 0%Z)]) \/
       (exists h' url, h = h' ++ [(url_init url, 0%Z)])))
     \/
     (tail = [] /\ h = resolved_log /\ dsname rpc = "url" /\
      exists msg, ereply s = nc_server_reply_err (op_failed_error msg))
     \/
     (exists c r,
         r = rc (E h c) /\ failed r = true /\ is_discard c = false /\
         ereply s = failure_reply E h c /\
         tail = (c, r) ::
                (if rolls_back c
                 then [(discard_changes,
                        rc (E (h ++ [(c, r)]) discard_changes))]
                 else []))).
Proof.
  intros s.
  destruct (op_cases URL_CAPABILITY E ly_ctx rpc d0)
    as [[Hp Hs] | [Hp [(Hu & msg & Hs) | [(Hu & Hcap & url & Hv & Hflow)
                                         | (Hu & Hflow)]]]];
    fold s in Hs || fold s in Hflow.
  - rewrite Hs. cbn [log ereply].
    exists [], [(check_exec_permission exec_xpath,
                 rc (E [] (check_exec_permission exec_xpath)))].
    split; [reflexivity|]. split; [reflexivity|]. right. right.
    exists (check_exec_permission exec_xpath),
      (rc (E [] (check_exec_permission exec_xpath))).
    repeat split. exact Hp.
  - rewrite Hs. cbn [log ereply]. exists resolved_log, [].
    split; [reflexivity|]. split; [reflexivity|]. right. left.
    repeat split; eauto.
  - destruct (url_flow_outcome E url _ s Hflow)
      as (h & H & tail & HH & Hl & Hall & Hend). cbn [log] in HH.
    exists H, tail. split; [exact Hl|].
    split; [subst H; now rewrite all_succeeded_app, Hall|].
    destruct Hend as [(Ht & Hr & h' & Hh') | (c & r & Hr & Hf & Hc & He & Ht)].
    + left. split; [exact Ht|]. split; [exact Hr|]. right.
      exists (resolved_log ++ h'), url. subst H h. now rewrite app_assoc.
    + right. right. exists c, r.
      destruct (other_call_no_roll_back c Hc) as (Hrb & Hnd).
      rewrite Hrb. repeat split; assumption.
  - destruct (store_flow_outcome E SR_DS_STARTUP _ _ s Hflow)
      as (h & H & tail & HH & Hl & Hall & Hend). cbn [log] in HH.
    exists H, tail. split; [exact Hl|].
    split; [subst H; now rewrite all_succeeded_app, Hall|].
    destruct Hend as [(Ht & Hr & h' & Hh')
                     | (c & r & Hr & Hf & Hc & Hnd & He & Ht)].
    + left. split; [exact Ht|]. split; [exact Hr|]. left.
      exists (resolved_log ++ h'). subst H h. now rewrite app_assoc.
    + right. right. exists c, r. unfold failure_reply.
      rewrite (store_call_not_import c Hc). repeat split; assumption.
Qed.

(** ** X1: the handler stops at the first failure *)

(** X1.  Whatever the collaborators do, the calls of an invocation are a
    run of calls that all succeeded, followed by nothing or by the one call
    that failed.  After a call that failed the handler calls nothing but
    [discard_changes], which it calls exactly when the failed call is a
    delete or the commit, and the reply it returns is the reply the failed
    call left (with the import error appended when the failed call is the
    import). *)
Theorem stops_at_first_failure (URL_CAPABILITY : bool) (E : env)
        (ly_ctx : list lys_module) (rpc : request) (d0 : sr_datastore_t) :
  let s := op_deleteconfig URL_CAPABILITY E ly_ctx rpc d0 in
  exists h tail,
    log s = h ++ tail /\
    all_succeeded h = true /\
    (tail = [] \/
     exists c r,
       r = rc (E h c) /\ failed r = true /\ is_discard c = false /\
       ereply s = failure_reply E h c /\
       (rolls_back c = true ->
        exists r', tail = [(c, r); (discard_changes, r')]) /\
       (rolls_back c = false -> tail = [(c, r)])).
Proof.
  intros s.
  destruct (op_outcome URL_CAPABILITY E ly_ctx rpc d0)
    as (h & tail & Hl & Hall & Hend). fold s in Hl, Hend.
  exists h, tail. split; [exact Hl|]. split; [exact Hall|].
  destruct Hend as [(Ht & _) | [(Ht & _) | (c & r & Hr & Hf & Hnd & He & Ht)]];
    [left; exact Ht | left; exact Ht | right].
  exists c, r. split; [exact Hr|]. split; [exact Hf|]. split; [exact Hnd|].
  split; [exact He|].
  split; intros Hrb; rewrite Hrb in Ht; [eauto|exact Ht].
Qed.

Lemma stops_at_first_failure_witness :
  let E := env_fail_at 6 (nc_server_reply_err sample_error) in
  let s := op_deleteconfig true E sample_ctx (mk_request "startup" None)
                           SR_DS_RUNNING in
  exists h c r r',
    log s = h ++ [(c, r); (discard_changes, r')] /\
    all_succeeded h = true /\
    failed r = true /\
    ereply s = failure_reply E h c.
Proof.
  cbv zeta.
  destruct (stops_at_first_failure true
              (env_fail_at 6 (nc_server_reply_err sample_error)) sample_ctx
              (mk_request "startup" None) SR_DS_RUNNING)
    as (h & tail & Hl & Hall & Hend).
  destruct Hend as [Ht | (c & r & Hr & Hf & Hnd & He & Hrb & Hnrb)].
  - exfalso. subst tail. rewrite app_nil_r in Hl. rewrite <- Hl in Hall.
    vm_compute in Hall. discriminate.
  - destruct (rolls_back c) eqn:Hc.
    + destruct (Hrb eq_refl) as (r' & Ht). exists h, c, r, r'.
      subst tail. auto.
    + exfalso. rewrite (Hnrb eq_refl) in Hl. apply (f_equal last) in Hl.
      rewrite last_snoc in Hl. vm_compute in Hl.
      injection Hl as Hc' _. subst c. discriminate Hnd.
Defined.

(** ** X3: the ok reply *)

Lemma all_succeeded_snoc_inv (h : list entry) (e : entry) :
  all_succeeded (h ++ [e]) = true -> failed (snd e) = false.
Proof.
  rewrite all_succeeded_app. intros H. apply andb_true_iff in H.
  destruct H as [_ H]. unfold all_succeeded in H. cbn in H.
  rewrite andb_true_r in H. now apply negb_true_iff in H.
Qed.

(** X3.  With collaborators that report every failure as an error reply,
    the handler answers ok exactly when no call of the invocation failed and
    the last call is the commit or the reinitialisation of the location. *)
Theorem ok_reply_iff (URL_CAPABILITY : bool) (E : env)
        (ly_ctx : list lys_module) (rpc : request) (d0 : sr_datastore_t) :
  reports_errors E ->
  let s := op_deleteconfig URL_CAPABILITY E ly_ctx rpc d0 in
  ereply s = Some NC_RPL_OK <->
  (all_succeeded (log s) = true /\
   ((exists h, log s = h ++ [(commit, 0%Z)]) \/
    (exists h url, log s = h ++ [(url_init url, 0%Z)]))).
Proof.
  intros Hrep s.
  destruct (op_outcome URL_CAPABILITY E ly_ctx rpc d0)
    as (h & tail & Hl & Hall & Hend). fold s in Hl, Hend.
  destruct Hend as [(Ht & Hr & Hlast)
                   | [(Ht & Hh & Hu & msg & Hr)
                     | (c & r & Hr & Hf & Hnd & He & Ht)]].
  - subst tail. rewrite app_nil_r in Hl. rewrite Hl.
    split; [intros _|intros _; exact Hr]. split; [exact Hall|exact Hlast].
  - subst tail h. rewrite app_nil_r in Hl. rewrite Hl, Hr.
    split; [discriminate|].
    intros (_ & [(h & Hh) | (h & url & Hh)]);
      destruct h as [|e1 [|e2 [|e3 h]]]; discriminate.
  - split.
    + intros Hok. exfalso. rewrite He in Hok.
      assert (Herr : is_error (out (E h c)) = true)
        by (apply Hrep; now rewrite <- Hr).
      unfold failure_reply in Hok. destruct (is_url_import c).
      * apply (is_error_add_err _ invalid_config_error) in Herr.
        rewrite Hok in Herr. discriminate.
      * rewrite Hok in Herr. discriminate.
    + intros (Hsucc & _). exfalso. rewrite Hl, Ht in Hsucc.
      rewrite all_succeeded_app in Hsucc. apply andb_true_iff in Hsucc.
      destruct Hsucc as [_ Hsucc]. unfold all_succeeded in Hsucc.
      cbn [forallb snd] in Hsucc. rewrite Hf in Hsucc. discriminate.
Qed.

Lemma ok_reply_iff_witness :
  let s := op_deleteconfig true env_ok sample_ctx (mk_request "startup" None)
                           SR_DS_RUNNING in
  reports_errors env_ok /\
  all_succeeded (log s) = true /\
  ereply s = Some NC_RPL_OK.
Proof.
  assert (Hrep : reports_errors env_ok) by (intros h c; discriminate).
  split; [exact Hrep|]. split; [reflexivity|].
  apply (ok_reply_iff true env_ok sample_ctx (mk_request "startup" None)
                      SR_DS_RUNNING Hrep).
  split; [reflexivity|]. left.
  exists (removelast
            (log (op_deleteconfig true env_ok sample_ctx
                                  (mk_request "startup" None) SR_DS_RUNNING))).
  reflexivity.
Defined.

(** ** X4, X5: the datastore the session is bound to *)

Lemma successes_le_calls (kind : call -> bool) (l : list entry) :
  calls kind l = false -> successes kind l = false.
Proof.
  unfold calls, successes. induction l as [|e l IH]; [reflexivity|].
  cbn [existsb]. intros H. apply orb_false_iff in H. destruct H as [He Hl].
  now rewrite He, IH.
Qed.

Lemma calls_false_In (kind : call -> bool) (l : list entry) (c : call)
      (r : Z) :
  calls kind l = false -> In (c, r) l -> kind c = false.
Proof.
  unfold calls. induction l as [|e l IH]; [intros _ []|].
  cbn [existsb]. intros H. apply orb_false_iff in H. destruct H as [He Hl].
  intros [Heq|Hin]; [now subst e|now apply IH].
Qed.

(** The datastore path and the binding: the session's datastore changes
    exactly when a switch succeeded, the only switch there can be is the one
    to the target, and it is made only to leave another datastore. *)
Lemma store_flow_binding (E : env) (target : sr_datastore_t)
      (paths : list string) (s s' : state) :
  store_flow E target paths s s' ->
  exists ext,
    log s' = log s ++ ext /\
    ((ds s' = ds s /\ successes is_switch ext = false) \/
     (ds s <> target /\ ds s' = target /\ successes is_switch ext = true)) /\
    (forall d r, In (session_switch_ds d, r) ext ->
                 d = target /\ ds s <> target) /\
    count_calls is_switch ext <= 1.
Proof.
  intros Hflow.
  assert (Hrest : forall x tail d r,
             calls is_switch tail = false ->
             In (session_switch_ds d, r) ((session_refresh, x) :: tail) ->
             False).
  { intros x tail d r Hns [Heq|Hin]; [discriminate|].
    now pose proof (calls_false_In _ _ _ _ Hns Hin). }
  assert (Hcount : forall tail,
             calls is_switch tail = false -> count_calls is_switch tail = 0).
  { unfold calls, count_calls. induction tail as [|e tail IH]; [reflexivity|].
    cbn [existsb List.filter]. intros H. apply orb_false_iff in H.
    destruct H as [He Hl]. rewrite He. now apply IH. }
  destruct (Z.eq_dec (ds s) target) as [Heq|Hneq].
  - destruct (store_flow_refresh E target _ s s' Hflow (or_introl Heq))
      as (h & tail & Hb & Hl & Hd & Hns & _).
    destruct Hb as [[_ Hh] | (Hne' & _)]; [subst h|contradiction].
    eexists. split; [exact Hl|]. split; [|split].
    + left. split; [congruence|].
      apply successes_le_calls. exact Hns.
    + intros d r Hin. exfalso. eapply Hrest; eauto.
    + change (count_calls is_switch tail <= 1). rewrite Hcount by exact Hns.
      lia.
  - destruct (failed (rc (E (log s) (session_switch_ds target)))) eqn:Hsw.
    + invert_store_flow Hflow;
        try (destruct Hb as [[Hd _] | (_ & Hok & _)];
             [contradiction | rewrite Hok in Hsw; discriminate]).
      subst r. cbn [log ds].
      eexists. split; [reflexivity|]. split; [|split].
      * left. split; [reflexivity|]. unfold successes. cbn.
        now rewrite Hsw.
      * intros d r [Hin|[]]. injection Hin as <- _. auto.
      * cbn. lia.
    + destruct (store_flow_refresh E target _ s s' Hflow (or_intror Hsw))
        as (h & tail & Hb & Hl & Hd & Hns & _).
      destruct Hb as [[Heq _] | (_ & Hok & Hh)]; [contradiction|subst h].
      exists ((session_switch_ds target, 0%Z) ::
              (session_refresh,
               rc (E (log s ++ [(session_switch_ds target, 0%Z)])
                     session_refresh)) :: tail).
      split; [rewrite Hl, <- app_assoc; reflexivity|]. split; [|split].
      * right. repeat split; assumption.
      * intros d r [Hin|Hin]; [injection Hin as <- _; auto|].
        exfalso. eapply Hrest; eauto.
      * change (S (count_calls is_switch tail) <= 1).
        rewrite Hcount by exact Hns. lia.
Qed.

(** The same for the whole handler, where the target is the startup
    datastore. *)
Lemma op_binding (URL_CAPABILITY : bool) (E : env) (ly_ctx : list lys_module)
      (rpc : request) (d0 : sr_datastore_t) :
  let s := op_deleteconfig URL_CAPABILITY E ly_ctx rpc d0 in
  ((ds s = d0 /\ successes is_switch (log s) = false) \/
   (d0 <> SR_DS_STARTUP /\ ds s = SR_DS_STARTUP /\
    successes is_switch (log s) = true)) /\
  (forall d r, In (session_switch_ds d, r) (log s) ->
               d = SR_DS_STARTUP /\ d0 <> SR_DS_STARTUP) /\
  count_calls is_switch (log s) <= 1.
Proof.
  intros s.
  pose proof (op_cases URL_CAPABILITY E ly_ctx rpc d0) as Hcases.
  cbv zeta in Hcases. fold s in Hcases. clearbody s.
  assert (Hquiet : forall e l,
             calls is_switch l = false ->
             let s := mk_state d0 e l in
             ((ds s = d0 /\ successes is_switch (log s) = false) \/
              (d0 <> SR_DS_STARTUP /\ ds s = SR_DS_STARTUP /\
               successes is_switch (log s) = true)) /\
             (forall d r, In (session_switch_ds d, r) (log s) ->
                          d = SR_DS_STARTUP /\ d0 <> SR_DS_STARTUP) /\
             count_calls is_switch (log s) <= 1).
  { intros e l Hns. cbn [log ds]. split; [|split].
    - left. split; [reflexivity|]. now apply successes_le_calls.
    - intros d r Hin. now pose proof (calls_false_In _ _ _ _ Hns Hin).
    - assert (Hc : count_calls is_switch l = 0).
      { unfold calls, count_calls in *.
        induction l as [|x l IH]; [reflexivity|].
        cbn [existsb List.filter] in *. apply orb_false_iff in Hns.
        destruct Hns as [Hx Hl]. rewrite Hx. now apply IH. }
      rewrite Hc. lia. }
  destruct Hcases
    as [[Hp Hs] | [Hp [(Hu & msg & Hs) | [(Hu & Hcap & url & Hv & Hflow)
                                         | (Hu & Hflow)]]]].
  - subst s. now apply Hquiet.
  - subst s. now apply Hquiet.
  - invert_url_flow Hflow; try subst h; now apply Hquiet.
  - destruct (store_flow_binding E SR_DS_STARTUP _ _ s Hflow)
      as (ext & Hl & Hds & Hin & Hcnt). cbn [log ds] in *.
    assert (Hsuc : successes is_switch (resolved_log ++ ext) =
                   successes is_switch ext).
    { unfold successes. now rewrite existsb_app. }
    rewrite Hl, Hsuc. split; [exact Hds|]. split.
    + intros d r Hi. apply in_app_or in Hi.
      destruct Hi as [[Hi|[Hi|[]]]|Hi]; try discriminate.
      exact (Hin d r Hi).
    + unfold count_calls in *. rewrite List.filter_app, length_app.
      exact Hcnt.
Qed.

(** X4.  After any invocation the session is bound to the datastore it was
    bound to or to the startup datastore.  Its binding differs from the one
    before exactly when a switch succeeded, and such a binding stays even
    when the invocation then fails.  The handler switches at most once per
    invocation, only to the startup datastore, and never when the session is
    already bound to it. *)
Theorem session_binding (URL_CAPABILITY : bool) (E : env)
        (ly_ctx : list lys_module) (rpc : request) (d0 : sr_datastore_t) :
  let s := op_deleteconfig URL_CAPABILITY E ly_ctx rpc d0 in
  ((ds s = d0 /\ successes is_switch (log s) = false) \/
   (d0 <> SR_DS_STARTUP /\ ds s = SR_DS_STARTUP /\
    successes is_switch (log s) = true)) /\
  (forall d r, In (session_switch_ds d, r) (log s) ->
               d = SR_DS_STARTUP /\ d0 <> SR_DS_STARTUP) /\
  count_calls is_switch (log s) <= 1.
Proof. apply op_binding. Qed.

Lemma session_binding_witness :
  let E := env_fail_at 3 (nc_server_reply_err sample_error) in
  let s := op_deleteconfig true E sample_ctx (mk_request "startup" None)
                           SR_DS_RUNNING in
  In (session_switch_ds SR_DS_STARTUP, 0%Z) (log s) /\
  is_error (ereply s) = true /\
  SR_DS_RUNNING <> SR_DS_STARTUP /\
  ds s = SR_DS_STARTUP.
Proof.
  cbv zeta.
  destruct (session_binding true
              (env_fail_at 3 (nc_server_reply_err sample_error)) sample_ctx
              (mk_request "startup" None) SR_DS_RUNNING)
    as (Hds & Hin & _).
  assert (Hi : In (session_switch_ds SR_DS_STARTUP, 0%Z)
                  (log (op_deleteconfig true
                          (env_fail_at 3 (nc_server_reply_err sample_error))
                          sample_ctx (mk_request "startup" None)
                          SR_DS_RUNNING)))
    by (vm_compute; auto).
  split; [exact Hi|]. split; [reflexivity|].
  split; [exact (proj2 (Hin _ _ Hi))|].
  destruct Hds as [(_ & Hno) | (_ & Hd & _)]; [|exact Hd].
  vm_compute in Hno. discriminate.
Defined.

Lemma no_switch_calls (l : list entry) :
  (forall d r, ~ In (session_switch_ds d, r) l) -> calls is_switch l = false.
Proof.
  unfold calls. induction l as [|[c r] l IH]; intros H; [reflexivity|].
  cbn [existsb fst]. rewrite IH by (intros d r' Hin; apply (H d r'); now right).
  destruct c as [x|x|u o| |u|d| |p o| |]; try reflexivity.
  exfalso. apply (H d r). now left.
Qed.

Lemma last_cons_default {A} (l : list A) (a d : A) :
  List.last (a :: l) d = List.last l a.
Proof.
  revert a d. induction l as [|b l IH]; intros a d; [reflexivity|].
  change (List.last (a :: b :: l) d) with (List.last (b :: l) d).
  now rewrite (IH b d), (IH b a).
Qed.

Lemma session_after_cons (URL_CAPABILITY : bool) (E : env)
      (ly_ctx : list lys_module) (rpc : request)
      (rest : list (env * list lys_module * request)) (d0 : sr_datastore_t) :
  session_after URL_CAPABILITY ((E, ly_ctx, rpc) :: rest) d0 =
  session_after URL_CAPABILITY rest
                (ds (op_deleteconfig URL_CAPABILITY E ly_ctx rpc d0)).
Proof. unfold session_after. cbn [serve List.map]. apply last_cons_default. Qed.

(** A session bound to the startup datastore stays there, and no invocation
    on it asks for a switch. *)
Lemma serve_startup (URL_CAPABILITY : bool)
      (invocations : list (env * list lys_module * request)) :
  Forall (fun s => ds s = SR_DS_STARTUP /\ calls is_switch (log s) = false)
         (serve URL_CAPABILITY invocations SR_DS_STARTUP) /\
  session_after URL_CAPABILITY invocations SR_DS_STARTUP = SR_DS_STARTUP.
Proof.
  induction invocations as [|[[E ly_ctx] rpc] rest IH]; [split; constructor|].
  destruct (op_binding URL_CAPABILITY E ly_ctx rpc SR_DS_STARTUP)
    as (Hds & Hin & _).
  assert (Hd : ds (op_deleteconfig URL_CAPABILITY E ly_ctx rpc SR_DS_STARTUP)
               = SR_DS_STARTUP).
  { destruct Hds as [(Hd & _) | (Hne & _)]; [exact Hd|contradiction]. }
  rewrite session_after_cons. cbn [serve]. rewrite Hd.
  split; [|apply IH]. constructor; [|apply IH].
  split; [exact Hd|]. apply no_switch_calls.
  intros d r Hi. destruct (Hin d r Hi) as (_ & Hne). contradiction.
Qed.

(** X5.  Over any sequence of invocations on one session, in either build
    and whatever the collaborators do: the session ends bound to the
    datastore it started with or to the startup datastore; at most one
    invocation of the sequence contains a switch that succeeded; and a
    session that starts on the startup datastore stays there without any
    invocation asking for a switch. *)
Theorem session_over_time (URL_CAPABILITY : bool)
        (invocations : list (env * list lys_module * request))
        (d0 : sr_datastore_t) :
  (session_after URL_CAPABILITY invocations d0 = d0 \/
   session_after URL_CAPABILITY invocations d0 = SR_DS_STARTUP) /\
  length (List.filter (fun s => successes is_switch (log s))
                      (serve URL_CAPABILITY invocations d0)) <= 1 /\
  (d0 = SR_DS_STARTUP ->
   Forall (fun s => ds s = SR_DS_STARTUP /\ calls is_switch (log s) = false)
          (serve URL_CAPABILITY invocations d0)).
Proof.
  split; [|split].
  - revert d0. induction invocations as [|[[E ly_ctx] rpc] rest IH];
      intros d0; [now left|].
    rewrite session_after_cons.
    destruct (op_binding URL_CAPABILITY E ly_ctx rpc d0) as (Hds & _).
    destruct Hds as [(Hd & _) | (_ & Hd & _)]; rewrite Hd.
    + apply IH.
    + right. apply serve_startup.
  - revert d0. induction invocations as [|[[E ly_ctx] rpc] rest IH];
      intros d0; [cbn; lia|].
    cbn [serve List.filter].
    destruct (op_binding URL_CAPABILITY E ly_ctx rpc d0) as (Hds & _).
    destruct Hds as [(Hd & Hsw) | (_ & Hd & Hsw)]; rewrite Hsw, Hd.
    + apply IH.
    + cbn [length].
      destruct (serve_startup URL_CAPABILITY rest) as (Hall & _).
      assert (Hz : length (List.filter
                             (fun s => successes is_switch (log s))
                             (serve URL_CAPABILITY rest SR_DS_STARTUP)) = 0).
      { induction Hall as [|s l (_ & Hs) _ IHl]; [reflexivity|].
        cbn [List.filter]. now rewrite (successes_le_calls _ _ Hs). }
      rewrite Hz. lia.
  - intros ->. apply serve_startup.
Qed.

Lemma session_over_time_witness :
  let invocations :=
    [ (env_fail_at 2 (nc_server_reply_err sample_error), sample_ctx,
       mk_request "startup" None);
      (env_ok, sample_ctx, mk_request "startup" None);
      (env_ok, sample_ctx, mk_request "url" (Some "file:///tmp/cfg.xml"));
      (env_ok, sample_ctx, mk_request "startup" None) ] in
  session_after true invocations SR_DS_RUNNING = SR_DS_STARTUP /\
  length (List.filter (fun s => successes is_switch (log s))
                      (serve true invocations SR_DS_RUNNING)) <= 1 /\
  Forall (fun s => ds s = SR_DS_STARTUP /\ calls is_switch (log s) = false)
         (serve true invocations SR_DS_STARTUP).
Proof.
  cbv zeta.
  destruct (session_over_time true
              [ (env_fail_at 2 (nc_server_reply_err sample_error), sample_ctx,
                 mk_request "startup" None);
                (env_ok, sample_ctx, mk_request "startup" None);
                (env_ok, sample_ctx,
                 mk_request "url" (Some "file:///tmp/cfg.xml"));
                (env_ok, sample_ctx, mk_request "startup" None) ]
              SR_DS_RUNNING) as (_ & Hcount & _).
  destruct (session_over_time true
              [ (env_fail_at 2 (nc_server_reply_err sample_error), sample_ctx,
                 mk_request "startup" None);
                (env_ok, sample_ctx, mk_request "startup" None);
                (env_ok, sample_ctx,
                 mk_request "url" (Some "file:///tmp/cfg.xml"));
                (env_ok, sample_ctx, mk_request "startup" None) ]
              SR_DS_STARTUP) as (_ & _ & Hstay).
  split; [reflexivity|]. split; [exact Hcount|]. exact (Hstay eq_refl).
Defined.

(** ** X6: requests for a datastore are handled alike *)

(** X6.  For a target other than <url>, the result of the handler depends
    neither on the tag of the target, nor on the value the target node
    carries, nor on whether the URL capability is compiled in: two such
    requests get the same reply, leave the session on the same datastore and
    cause the same calls. *)
Theorem datastore_requests_alike (cap cap' : bool) (E : env)
        (ly_ctx : list lys_module) (rpc rpc' : request)
        (d0 : sr_datastore_t) :
  dsname rpc <> "url" ->
  dsname rpc' <> "url" ->
  op_deleteconfig cap E ly_ctx rpc d0 = op_deleteconfig cap' E ly_ctx rpc' d0.
Proof.
  intros Hu Hu'. apply eqb_url_false in Hu. apply eqb_url_false in Hu'.
  destruct (failed (rc (E [] (check_exec_permission exec_xpath)))) eqn:Hp.
  - now rewrite !(op_denied _ _ _ _ _ Hp).
  - now rewrite (op_datastore cap E ly_ctx rpc d0 Hp Hu),
      (op_datastore cap' E ly_ctx rpc' d0 Hp Hu').
Qed.

Lemma datastore_requests_alike_witness :
  dsname (mk_request "candidate" (Some "ignored")) <> "url" /\
  dsname (mk_request "startup" None) <> "url" /\
  op_deleteconfig true (env_fail_at 5 (nc_server_reply_err sample_error))
                  sample_ctx (mk_request "candidate" (Some "ignored"))
                  SR_DS_CANDIDATE =
  op_deleteconfig false (env_fail_at 5 (nc_server_reply_err sample_error))
                  sample_ctx (mk_request "startup" None) SR_DS_CANDIDATE.
Proof.
  assert (H1 : dsname (mk_request "candidate" (Some "ignored")) <> "url")
    by discriminate.
  assert (H2 : dsname (mk_request "startup" None) <> "url") by discriminate.
  split; [exact H1|]. split; [exact H2|].
  exact (datastore_requests_alike true false
           (env_fail_at 5 (nc_server_reply_err sample_error)) sample_ctx
           (mk_request "candidate" (Some "ignored"))
           (mk_request "startup" None) SR_DS_CANDIDATE H1 H2).
Defined.

(** ** X7: what the handler takes from the schema *)

Lemma module_iter_delete_all (E : env) (mods : list lys_module) (s : state) :
  module_iter E mods s = delete_all E (delete_paths mods) s.
Proof.
  revert s. induction mods as [|md rest IH]; intros s; [reflexivity|].
  rewrite module_iter_cons, delete_paths_cons.
  destruct (qualifying md); [|apply IH].
  cbn [delete_all]. unfold bind.
  destruct (delete_domain E (snprintf_path (name md)) s) as [[[]|] s1];
    [apply IH|reflexivity].
Qed.

Lemma filter_qualifying_paths (mods : list lys_module) :
  delete_paths (List.filter qualifying mods) = delete_paths mods.
Proof.
  unfold delete_paths. f_equal.
  induction mods as [|md rest IH]; [reflexivity|].
  cbn [List.filter]. destruct (qualifying md) eqn:Hq; [|exact IH].
  cbn [List.filter]. now rewrite Hq, IH.
Qed.

(** X7.  The handler takes from the schema registry nothing but the list of
    paths of the modules that have a writable top-level data node, in
    registry order: two registries with the same list give the same reply,
    the same binding and the same calls.  So the order of the nodes inside a
    module, the nodes after the first data node, and the modules without
    configuration make no difference; in particular removing the modules
    without configuration from the registry changes nothing. *)
Theorem schema_through_paths (URL_CAPABILITY : bool) (E : env)
        (rpc : request) (d0 : sr_datastore_t) :
  (forall ctx1 ctx2,
      delete_paths ctx1 = delete_paths ctx2 ->
      op_deleteconfig URL_CAPABILITY E ctx1 rpc d0 =
      op_deleteconfig URL_CAPABILITY E ctx2 rpc d0) /\
  (forall ly_ctx,
      op_deleteconfig URL_CAPABILITY E (List.filter qualifying ly_ctx) rpc d0 =
      op_deleteconfig URL_CAPABILITY E ly_ctx rpc d0).
Proof.
  assert (Hgen : forall ctx1 ctx2,
             delete_paths ctx1 = delete_paths ctx2 ->
             op_deleteconfig URL_CAPABILITY E ctx1 rpc d0 =
             op_deleteconfig URL_CAPABILITY E ctx2 rpc d0).
  { intros ctx1 ctx2 Hpaths.
    destruct (failed (rc (E [] (check_exec_permission exec_xpath)))) eqn:Hp.
    { now rewrite !(op_denied _ _ _ _ _ Hp). }
    destruct (String.eqb (dsname rpc) "url") eqn:Hu.
    - destruct URL_CAPABILITY eqn:Hcap.
      + destruct (value_str rpc) as [url|] eqn:Hv.
        * now rewrite !(op_url true E _ rpc d0 Hp Hu eq_refl url Hv).
        * now rewrite !(op_url_missing true E _ rpc d0 Hp Hu eq_refl Hv).
      + now rewrite !(op_url_unsupported false E _ rpc d0 Hp Hu eq_refl).
    - rewrite !(op_datastore URL_CAPABILITY E _ rpc d0 Hp Hu).
      unfold erase_store. unfold bind at 1 3.
      destruct (switch_and_refresh E 0%Z _) as [[[]|] s1]; [|reflexivity].
      unfold bind. now rewrite !module_iter_delete_all, Hpaths. }
  split; [exact Hgen|].
  intros ly_ctx. apply Hgen, filter_qualifying_paths.
Qed.

Lemma schema_through_paths_witness :
  let reordered :=
    [ mk_module "ietf-interfaces"
                [mk_node LYS_NOTIF 0%Z; mk_node LYS_CONTAINER LYS_CONFIG_W;
                 mk_node LYS_LEAF LYS_CONFIG_R];
      mk_module "ietf-system"
                [mk_node LYS_LIST LYS_CONFIG_W; mk_node LYS_GROUPING 0%Z] ] in
  let E := env_fail_at 5 (nc_server_reply_err sample_error) in
  delete_paths sample_ctx = delete_paths reordered /\
  op_deleteconfig true E sample_ctx (mk_request "startup" None) SR_DS_RUNNING =
  op_deleteconfig true E reordered (mk_request "startup" None) SR_DS_RUNNING.
Proof.
  cbv zeta. split; [reflexivity|].
  apply (proj1 (schema_through_paths true
                  (env_fail_at 5 (nc_server_reply_err sample_error))
                  (mk_request "startup" None) SR_DS_RUNNING)).
  reflexivity.
Defined.

(** ** X8: the path buffer *)

Lemma length_substring_0 (s : string) (n : nat) :
  String.length (String.substring 0 n s) = Nat.min n (String.length s).
Proof.
  revert n. induction s as [|c s IH]; intros [|n]; cbn; try reflexivity.
  now rewrite IH.
Qed.

Lemma prefix_substring_0 (s : string) (n : nat) :
  String.prefix (String.substring 0 n s) s = true.
Proof.
  revert n. induction s as [|c s IH]; intros [|n]; cbn; try reflexivity.
  destruct (Ascii.ascii_dec c c) as [_|Hne]; [apply IH|contradiction].
Qed.

Lemma length_module_path (mod_name : string) :
  String.length (module_path mod_name) = String.length mod_name + 3.
Proof.
  unfold module_path. rewrite !length_append. cbn [String.length]. lia.
Qed.

(** X8.  The path the handler hands to [np2srv_sr_delete_item] never exceeds
    the 1023 characters the buffer holds besides the terminator, for a module
    name of any length.  It is always the beginning of "/<name>:*": its
    length is the smaller of 1023 and the length of the name plus 3, and it
    is the whole of "/<name>:*" exactly when the name has at most 1020
    characters. *)
Theorem snprintf_path_bounds (mod_name : string) :
  String.length (snprintf_path mod_name) <= 1023 /\
  String.length (snprintf_path mod_name) =
    Nat.min 1023 (String.length mod_name + 3) /\
  String.prefix (snprintf_path mod_name) (module_path mod_name) = true /\
  (String.length mod_name <= 1020 <->
   snprintf_path mod_name = module_path mod_name).
Proof.
  assert (Hlen : String.length (snprintf_path mod_name) =
                 Nat.min 1023 (String.length mod_name + 3)).
  { unfold snprintf_path. fold (module_path mod_name).
    now rewrite length_substring_0, length_module_path. }
  split; [rewrite Hlen; lia|]. split; [exact Hlen|]. split.
  - unfold snprintf_path. fold (module_path mod_name).
    apply prefix_substring_0.
  - split; [apply snprintf_path_fits|].
    intros Heq. rewrite Heq, length_module_path in Hlen. lia.
Qed.

Lemma snprintf_path_bounds_witness :
  let long_name := String.concat "" (repeat "m" 1100) in
  String.length (snprintf_path long_name) = 1023 /\
  snprintf_path long_name <> module_path long_name.
Proof.
  cbv zeta.
  destruct (snprintf_path_bounds (String.concat "" (repeat "m" 1100)))
    as (_ & Hlen & _ & Hiff).
  split.
  - rewrite Hlen. vm_compute. reflexivity.
  - intros Heq. apply Hiff in Heq. vm_compute in Heq. lia.
Defined.

(** ** X9: how many calls an invocation makes *)

Lemma count_calls_app (kind : call -> bool) (l1 l2 : list entry) :
  count_calls kind (l1 ++ l2) = count_calls kind l1 + count_calls kind l2.
Proof. unfold count_calls. now rewrite List.filter_app, length_app. Qed.

Lemma count_calls_cons (kind : call -> bool) (c : call) (r : Z)
      (l : list entry) :
  count_calls kind ((c, r) :: l) =
  (if kind c then 1 else 0) + count_calls kind l.
Proof. unfold count_calls. cbn [List.filter fst]. now destruct (kind c). Qed.

Lemma count_calls_deleted (kind : call -> bool) (paths : list string) :
  count_calls kind (List.map deleted paths) <= length paths.
Proof.
  induction paths as [|p paths IH]; [cbn; lia|].
  cbn [List.map]. unfold deleted at 1. rewrite count_calls_cons.
  cbn [length]. destruct (kind (delete_item p 0)); lia.
Qed.

Lemma count_calls_deleted_none (kind : call -> bool) (paths : list string) :
  (forall p, kind (delete_item p 0) = false) ->
  count_calls kind (List.map deleted paths) = 0.
Proof.
  intros H. induction paths as [|p paths IH]; [reflexivity|].
  cbn [List.map]. unfold deleted at 1. now rewrite count_calls_cons, H, IH.
Qed.

(** The calls of the datastore path, counted. *)
Lemma store_flow_budget (E : env) (target : sr_datastore_t)
      (paths : list string) (s s' : state) :
  store_flow E target paths s s' ->
  exists ext,
    log s' = log s ++ ext /\
    length ext <= length paths + 4 /\
    count_calls is_delete ext <= length paths /\
    count_calls is_refresh ext <= 1 /\
    count_calls is_commit ext <= 1 /\
    count_calls is_discard ext <= 1 /\
    count_calls is_check ext = 0.
Proof.
  intros Hflow.
  assert (Hpre : forall h, bound_log E target s h ->
             exists pre, h = log s ++ pre /\ length pre <= 1 /\
                         forall kind, kind (session_switch_ds target) = false ->
                                      count_calls kind pre = 0).
  { intros h Hb. destruct (bound_log_ext E target s h Hb) as (pre & Hh & Hp).
    exists pre. split; [exact Hh|].
    destruct Hp as [Hp|Hp]; subst pre; (split; [cbn; lia|]);
      intros kind Hk; [reflexivity|]. rewrite count_calls_cons, Hk.
    reflexivity. }
  assert (Hmid : forall pre l last,
             length pre <= 1 ->
             (forall kind, kind (session_switch_ds target) = false ->
                           count_calls kind pre = 0) ->
             length last <= 2 ->
             count_calls is_refresh last = 0 ->
             count_calls is_check last = 0 ->
             count_calls is_commit last <= 1 ->
             count_calls is_discard last <= 1 ->
             length l + count_calls is_delete last <= length paths ->
             let ext := pre ++ (session_refresh, 0%Z) ::
                        (List.map deleted l ++ last) in
             length ext <= length paths + 4 /\
             count_calls is_delete ext <= length paths /\
             count_calls is_refresh ext <= 1 /\
             count_calls is_commit ext <= 1 /\
             count_calls is_discard ext <= 1 /\
             count_calls is_check ext = 0).
  { intros pre l last Hlen Hcnt Hlast Hrf Hck Hcm Hdc Hdel ext. subst ext.
    rewrite length_app. cbn [length]. rewrite length_app, length_map.
    rewrite !count_calls_app, !count_calls_cons, !count_calls_app.
    rewrite !Hcnt by reflexivity.
    rewrite (count_calls_deleted_none is_refresh l),
      (count_calls_deleted_none is_commit l),
      (count_calls_deleted_none is_discard l),
      (count_calls_deleted_none is_check l) by reflexivity.
    pose proof (count_calls_deleted is_delete l) as Hd.
    cbn [is_delete is_refresh is_commit is_discard is_check].
    rewrite Hrf, Hck. repeat split; lia. }
  invert_store_flow Hflow; cbn [log].
  - exists [(session_switch_ds target, rc r)].
    split; [reflexivity|]. cbn. repeat split; lia.
  - destruct (Hpre h Hb) as (pre & Hh & Hlen & Hcnt). subst h.
    exists (pre ++ [(session_refresh, rc r)]).
    split; [now rewrite <- app_assoc|].
    rewrite length_app, !count_calls_app, !Hcnt by reflexivity.
    cbn. repeat split; lia.
  - destruct (Hpre h Hb) as (pre & Hh & Hlen & Hcnt). subst h h'.
    exists (pre ++ (session_refresh, 0%Z) ::
            (List.map deleted done ++ [(delete_item p 0, rc r);
                                       (discard_changes, r')])).
    split; [now rewrite <- !app_assoc|].
    apply Hmid; try assumption; try reflexivity; cbn; try lia.
    subst paths. rewrite length_app. cbn [length]. lia.
  - destruct (Hpre h Hb) as (pre & Hh & Hlen & Hcnt). subst h h'.
    exists (pre ++ (session_refresh, 0%Z) ::
            (List.map deleted paths ++ [(commit, rc r);
                                        (discard_changes, r')])).
    split; [now rewrite <- !app_assoc|].
    apply Hmid; try assumption; try reflexivity; cbn; lia.
  - destruct (Hpre h Hb) as (pre & Hh & Hlen & Hcnt). subst h h'.
    exists (pre ++ (session_refresh, 0%Z) ::
            (List.map deleted paths ++ [(commit, 0%Z)])).
    split; [now rewrite <- !app_assoc|].
    apply Hmid; try assumption; try reflexivity; cbn; lia.
Qed.

(** X9.  The permission check is the first call of every invocation and is
    made once.  An invocation makes at most one refresh, one commit and one
    [discard_changes], at most one delete request per module with a writable
    top-level data node, and never more calls in all than the number of
    those modules plus six. *)
Theorem call_budget (URL_CAPABILITY : bool) (E : env)
        (ly_ctx : list lys_module) (rpc : request) (d0 : sr_datastore_t) :
  let s := op_deleteconfig URL_CAPABILITY E ly_ctx rpc d0 in
  (exists rest,
      log s = (check_exec_permission exec_xpath,
               rc (E [] (check_exec_permission exec_xpath))) :: rest /\
      count_calls is_check rest = 0) /\
  length (log s) <= length (delete_paths ly_ctx) + 6 /\
  count_calls is_delete (log s) <= length (delete_paths ly_ctx) /\
  count_calls is_refresh (log s) <= 1 /\
  count_calls is_commit (log s) <= 1 /\
  count_calls is_discard (log s) <= 1.
Proof.
  intros s.
  pose proof (op_cases URL_CAPABILITY E ly_ctx rpc d0) as Hcases.
  cbv zeta in Hcases. fold s in Hcases. clearbody s.
  assert (Hquiet : forall (r : Z) (rest : list entry),
             length rest <= 4 ->
             count_calls is_check rest = 0 ->
             count_calls is_delete rest = 0 ->
             count_calls is_refresh rest = 0 ->
             count_calls is_commit rest = 0 ->
             count_calls is_discard rest = 0 ->
             let l := (check_exec_permission exec_xpath, r) :: rest in
             (exists rest',
                 l = (check_exec_permission exec_xpath, r) :: rest' /\
                 count_calls is_check rest' = 0) /\
             length l <= length (delete_paths ly_ctx) + 6 /\
             count_calls is_delete l <= length (delete_paths ly_ctx) /\
             count_calls is_refresh l <= 1 /\
             count_calls is_commit l <= 1 /\
             count_calls is_discard l <= 1).
  { intros r rest Hlen H1 H2 H3 H4 H5 l. subst l.
    split; [eauto|]. rewrite !count_calls_cons, H2, H3, H4, H5.
    cbn [length is_delete is_refresh is_commit is_discard]. repeat split; lia. }
  destruct Hcases
    as [[Hp Hs] | [Hp [(Hu & msg & Hs) | [(Hu & Hcap & url & Hv & Hflow)
                                         | (Hu & Hflow)]]]];
    try (apply failed_false in Hp; rewrite Hp).
  - subst s. cbn [log]. apply Hquiet; try reflexivity. cbn; lia.
  - subst s. cbn [log]. unfold resolved_log.
    apply Hquiet; try reflexivity. cbn; lia.
  - unfold resolved_log in Hflow.
    invert_url_flow Hflow; try subst h; cbn [log app];
      (apply Hquiet; try reflexivity; cbn; lia).
  - destruct (store_flow_budget E SR_DS_STARTUP _ _ s Hflow)
      as (ext & Hl & Hlen & Hdel & Hrf & Hcm & Hdc & Hck).
    cbn [log] in Hl. rewrite Hl. unfold resolved_log. cbn [app]. split.
    + eexists. split; [reflexivity|]. now rewrite count_calls_cons, Hck.
    + rewrite !count_calls_cons. cbn [length is_delete is_refresh is_commit
                                        is_discard].
      repeat split; lia.
Qed.

(** ** X10: what a successful erase leaves alone *)

Lemma apply_delete_miss (d d' : sr_datastore_t) (path m : string)
      (c : gmap (Z * string) string) :
  d' <> d \/ module_path m <> path ->
  apply_delete d path c !! (d', m) = c !! (d', m).
Proof.
  intros Hmiss. unfold apply_delete.
  destruct (c !! (d', m)) as [x|] eqn:Hc.
  - apply map_lookup_filter_Some. split; [exact Hc|].
    cbn. intros [Hd Hp]. destruct Hmiss; contradiction.
  - apply map_lookup_filter_None. now left.
Qed.

Lemma apply_pending_miss (d d' : sr_datastore_t) (paths : list string)
      (m : string) (c : gmap (Z * string) string) :
  d' <> d \/ ~ In (module_path m) paths ->
  apply_pending d paths c !! (d', m) = c !! (d', m).
Proof.
  revert c. induction paths as [|p paths IH]; intros c Hmiss; [reflexivity|].
  unfold apply_pending in *. cbn [foldl]. rewrite IH.
  - apply apply_delete_miss. destruct Hmiss as [Hd|Hp]; [now left|right].
    intros Heq. apply Hp. now left.
  - destruct Hmiss as [Hd|Hp]; [now left|right].
    intros Hin. apply Hp. now right.
Qed.

(** X10.  Against the engine of the specification, bound on entry to the
    session's datastore: whatever the invocation does, the stored
    configuration of every datastore other than startup is what it was, and
    so is, in the startup datastore, the data of every module whose path is
    neither among the changes that were pending on entry nor among the paths
    the handler deletes. *)
Theorem erase_frame (URL_CAPABILITY : bool) (E : env)
        (ly_ctx : list lys_module) (rpc : request) (d0 : sr_datastore_t)
        (eng : engine) :
  bound eng = d0 ->
  let s := op_deleteconfig URL_CAPABILITY E ly_ctx rpc d0 in
  let eng' := replay eng (log s) in
  forall d m,
    d <> SR_DS_STARTUP \/
    ~ In (module_path m) (pending eng ++ delete_paths ly_ctx) ->
    committed eng' !! (d, m) = committed eng !! (d, m).
Proof.
  intros Hbound s eng' d m Hmiss. subst eng'.
  pose proof (op_cases URL_CAPABILITY E ly_ctx rpc d0) as Hcases.
  cbv zeta in Hcases. fold s in Hcases. clearbody s.
  assert (Hquiet : forall l, successes is_commit l = false ->
                             committed (replay eng l) !! (d, m) =
                             committed eng !! (d, m)).
  { intros l Hl. now rewrite replay_committed_unchanged. }
  destruct Hcases
    as [[Hp Hs] | [Hp [(Hu & msg & Hs) | [(Hu & Hcap & url & Hv & Hflow)
                                         | (Hu & Hflow)]]]].
  - subst s. now apply Hquiet.
  - subst s. now apply Hquiet.
  - invert_url_flow Hflow; try subst h; now apply Hquiet.
  - destruct (store_flow_engine E SR_DS_STARTUP _ _ s Hflow)
      as (ext & Hl & Heng). cbn [log ds] in *.
    destruct (Heng eng Hbound) as (Hdich & _).
    rewrite Hl, replay_app.
    change (replay eng resolved_log) with eng.
    destruct Hdich as [(_ & _ & _ & _ & Hc) | (_ & Hc)]; rewrite Hc;
      [|reflexivity].
    now apply apply_pending_miss.
Qed.

Lemma erase_frame_witness :
  let s := op_deleteconfig true env_ok sample_ctx (mk_request "startup" None)
                           SR_DS_RUNNING in
  bound sample_engine = SR_DS_RUNNING /\
  SR_DS_RUNNING <> SR_DS_STARTUP /\
  committed (replay sample_engine (log s)) !! (SR_DS_RUNNING, "ietf-system") =
  Some "<system/>".
Proof.
  cbv zeta.
  assert (Hne : SR_DS_RUNNING <> SR_DS_STARTUP) by discriminate.
  split; [reflexivity|]. split; [exact Hne|].
  rewrite (erase_frame true env_ok sample_ctx (mk_request "startup" None)
                       SR_DS_RUNNING sample_engine eq_refl
                       SR_DS_RUNNING "ietf-system" (or_introl Hne)).
  reflexivity.
Defined.

(** ** X2: the outcome of [discard_changes] is ignored *)

Lemma agree_refl {A} (m : M A) : agree m m.
Proof. intros s. now left. Qed.

Lemma agree_bind {A B} (m1 m2 : M A) (k1 k2 : A -> M B) :
  agree m1 m2 -> (forall a, agree (k1 a) (k2 a)) ->
  agree (bind m1 k1) (bind m2 k2).
Proof.
  intros Hm Hk s. unfold bind. destruct (Hm s) as [Heq | (H1 & H2 & Hsim)].
  - rewrite Heq. destruct (m2 s) as [[a|] s']; [apply Hk|now left].
  - destruct (m1 s) as [[a1|] s1]; [discriminate|].
    destruct (m2 s) as [[a2|] s2]; [discriminate|].
    right. auto.
Qed.

Section DiscardIgnored.

Variables E1 E2 : env.
Hypothesis Hagree : forall h c, is_discard c = false -> E1 h c = E2 h c.

Lemma invoke_agree (c : call) :
  is_discard c = false -> agree (invoke E1 c) (invoke E2 c).
Proof. intros Hc s. left. unfold invoke. now rewrite (Hagree _ _ Hc). Qed.

Lemma rollback_agree {A} :
  agree (do! np2srv_sr_discard_changes E1; @goto_finish A)
        (do! np2srv_sr_discard_changes E2; @goto_finish A).
Proof.
  intros s. right. unfold np2srv_sr_discard_changes. unfold_monad.
  cbn [fst snd]. split; [reflexivity|]. split; [reflexivity|].
  split; [reflexivity|]. split; [reflexivity|]. right. cbn [log]. eauto.
Qed.

Ltac agree_step :=
  first
    [ apply agree_refl
    | apply invoke_agree; reflexivity
    | apply rollback_agree
    | apply agree_bind; [|intros ?]
    | match goal with
      | |- agree (if ?b then _ else _) (if ?b then _ else _) => destruct b
      | |- agree (match ?o with Some _ => _ | None => _ end)
                 (match ?o with Some _ => _ | None => _ end) => destruct o
      end ].

Lemma delete_domain_agree (path : string) :
  agree (delete_domain E1 path) (delete_domain E2 path).
Proof. unfold delete_domain. unfold_calls. repeat agree_step. Qed.

Lemma module_iter_agree (mods : list lys_module) :
  agree (module_iter E1 mods) (module_iter E2 mods).
Proof.
  induction mods as [|md rest IH]; [apply agree_refl|].
  cbn [module_iter]. apply agree_bind; [|intros _; exact IH].
  intros s. rewrite !tree_for_eq.
  destruct (existsb _ _); [apply delete_domain_agree|now left].
Qed.

Lemma op_deleteconfig_body_agree (URL_CAPABILITY : bool)
      (ly_ctx : list lys_module) (rpc : request) :
  agree (op_deleteconfig_body URL_CAPABILITY E1 ly_ctx rpc)
        (op_deleteconfig_body URL_CAPABILITY E2 ly_ctx rpc).
Proof.
  unfold op_deleteconfig_body.
  apply agree_bind; [apply invoke_agree; reflexivity|intros r].
  destruct (failed r); [apply agree_refl|].
  apply agree_bind; [apply agree_refl|intros tgt].
  destruct (snd tgt) as [url|].
  - unfold delete_url. unfold_calls. repeat agree_step.
  - apply agree_bind; [|intros _; apply agree_bind;
                        [apply module_iter_agree|intros _]].
    + unfold switch_and_refresh. unfold_calls. repeat agree_step.
    + unfold commit_result. unfold_calls. repeat agree_step.
Qed.

End DiscardIgnored.

(** X2.  What [discard_changes] answers makes no difference to the caller:
    with two behaviours of the collaborators that agree on every call but
    [discard_changes], the handler returns the same reply, leaves the session
    on the same datastore and makes the same calls with the same outcomes,
    except for the return code of a [discard_changes] that ends the
    invocation. *)
Theorem discard_outcome_ignored (URL_CAPABILITY : bool) (E1 E2 : env)
        (ly_ctx : list lys_module) (rpc : request) (d0 : sr_datastore_t) :
  (forall h c, is_discard c = false -> E1 h c = E2 h c) ->
  same_but_discard (op_deleteconfig URL_CAPABILITY E1 ly_ctx rpc d0)
                   (op_deleteconfig URL_CAPABILITY E2 ly_ctx rpc d0).
Proof.
  intros Hagree. unfold op_deleteconfig.
  destruct (op_deleteconfig_body_agree E1 E2 Hagree URL_CAPABILITY ly_ctx rpc
              (mk_state d0 None [])) as [Heq | (_ & _ & Hsim)].
  - rewrite Heq. repeat split. now left.
  - exact Hsim.
Qed.

Lemma discard_outcome_ignored_witness :
  let E1 := env_fail_at 5 (nc_server_reply_err sample_error) in
  let E2 := env_discard_fails E1 in
  let s1 := op_deleteconfig true E1 sample_ctx (mk_request "startup" None)
                            SR_DS_RUNNING in
  let s2 := op_deleteconfig true E2 sample_ctx (mk_request "startup" None)
                            SR_DS_RUNNING in
  (forall h c, is_discard c = false -> E1 h c = E2 h c) /\
  same_but_discard s1 s2 /\
  log s1 <> log s2.
Proof.
  cbv zeta.
  assert (Hagree : forall h c,
             is_discard c = false ->
             env_fail_at 5 (nc_server_reply_err sample_error) h c =
             env_discard_fails
               (env_fail_at 5 (nc_server_reply_err sample_error)) h c).
  { intros h c Hc. unfold env_discard_fails. now rewrite Hc. }
  split; [exact Hagree|]. split.
  - exact (discard_outcome_ignored true _ _ sample_ctx
             (mk_request "startup" None) SR_DS_RUNNING Hagree).
  - vm_compute. discriminate.
Defined.
